(** * MP4-TO-MPEG: the batch converter of [convert.py], embedded and verified

    The development follows the source file top to bottom:
    [get_ffmpeg_path], [convert_file], [sanitize_filename] and
    [convert_folder].

    - Python [str] values are [string]s (characters are the code points
      below 256; [lower] and [isspace] are Python's on that range).
    - Python [int] values are [Z].
    - Python [float] values (modification times, sizes in MB, percentages)
      are exact rationals [Q]: comparisons are those of the floats, and
      arithmetic is taken before rounding.  A true division by zero raises,
      as in Python.
    - The operating system (file system, clock, child processes) is an
      interface, [OS], whose operations carry the names of the Python calls
      made by the source.  The code runs in a state-and-exception monad
      over a world of that interface, a log (the [logging] sink) and the
      sequence of effectful calls made so far. *)

From Stdlib Require Import ZArith QArith Qround String Ascii List Bool Lia.
From Stdlib Require Import DecimalString Lqa.
Import ListNotations.

Local Open Scope string_scope.
Local Open Scope Z_scope.

(** ** Python string primitives *)

Module Py.

(** [len(s)] *)
Definition len (s : string) : Z := Z.of_nat (String.length s).

(** [s[:n]] for [n >= 0] *)
Fixpoint take (n : nat) (s : string) : string :=
  match n, s with
  | O, _ => ""
  | _, EmptyString => ""
  | S n', String c r => String c (take n' r)
  end.

(** [s[n:]] for [n >= 0] *)
Fixpoint drop (n : nat) (s : string) : string :=
  match n, s with
  | O, _ => s
  | _, EmptyString => ""
  | S n', String _ r => drop n' r
  end.

(** [s[-n:]] for [n > 0]: the last [n] characters, all of [s] when it is
    shorter. *)
Definition last_chars (n : nat) (s : string) : string :=
  drop (String.length s - n) s.

(** The characters of [s] that satisfy [keep], in order. *)
Fixpoint filter (keep : ascii -> bool) (s : string) : string :=
  match s with
  | EmptyString => ""
  | String c r => if keep c then String c (filter keep r) else filter keep r
  end.

(** Every character of [s] satisfies [p]. *)
Fixpoint all_chars (p : ascii -> bool) (s : string) : bool :=
  match s with
  | EmptyString => true
  | String c r => p c && all_chars p r
  end.

(** [c.lower()] on one character: A-Z, and the Latin-1 capitals
    U+00C0..U+00DE except the multiplication sign U+00D7. *)
Definition lower_char (c : ascii) : ascii :=
  let n := nat_of_ascii c in
  if ((65 <=? n) && (n <=? 90)
      || (192 <=? n) && (n <=? 222) && negb (n =? 215))%nat
  then ascii_of_nat (n + 32) else c.

(** [s.lower()] *)
Fixpoint lower (s : string) : string :=
  match s with
  | EmptyString => ""
  | String c r => String (lower_char c) (lower r)
  end.

(** [c.isspace()]: TAB LF VT FF CR, FS GS RS US, space, NEL, NBSP. *)
Definition isspace (c : ascii) : bool :=
  let n := nat_of_ascii c in
  ((9 <=? n) && (n <=? 13) || (28 <=? n) && (n <=? 32)
   || (n =? 133) || (n =? 160))%nat.

(** [s.lstrip()] *)
Fixpoint lstrip (s : string) : string :=
  match s with
  | EmptyString => ""
  | String c r => if isspace c then lstrip r else s
  end.

(** [s.rstrip()] *)
Fixpoint rstrip (s : string) : string :=
  match s with
  | EmptyString => ""
  | String c r =>
      match rstrip r with
      | EmptyString => if isspace c then "" else String c ""
      | r' => String c r'
      end
  end.

(** [s.strip()] *)
Definition strip (s : string) : string := rstrip (lstrip s).

(** [s.startswith(p)] *)
Definition startswith (s p : string) : bool := String.prefix p s.

(** [sub in s] *)
Fixpoint contains (sub s : string) : bool :=
  String.prefix sub s
  || match s with
     | EmptyString => false
     | String _ r => contains sub r
     end.

(** [s.endswith(suf)] *)
Fixpoint endswith (s suf : string) : bool :=
  String.eqb s suf
  || match s with
     | EmptyString => false
     | String _ r => endswith r suf
     end.

(** [s.split(sep)] for a one-character separator; never the empty list. *)
Fixpoint split (sep : ascii) (s : string) : list string :=
  match s with
  | EmptyString => [""]
  | String c r =>
      if Ascii.eqb c sep then "" :: split sep r
      else match split sep r with
           | h :: t => String c h :: t
           | [] => [String c ""]
           end
  end.

(** [s.rfind(c)] for a one-character needle: the highest index, or -1. *)
Fixpoint rfind (c : ascii) (s : string) : Z :=
  match s with
  | EmptyString => -1
  | String d r =>
      let k := rfind c r in
      if 0 <=? k then k + 1 else if Ascii.eqb d c then 0 else -1
  end.

(** [str(n)] for an integer. *)
Definition str_of_int (n : Z) : string :=
  match n with
  | Z0 => "0"
  | Zpos p => DecimalString.NilEmpty.string_of_uint (Pos.to_uint p)
  | Zneg p => String "-" (DecimalString.NilEmpty.string_of_uint (Pos.to_uint p))
  end.

(** The concatenation of the strings of [ls], in order. *)
Definition concat (ls : list string) : string :=
  fold_right String.append "" ls.

(** [not s]: a string is falsy when it is empty. *)
Definition falsy (s : string) : bool :=
  match s with EmptyString => true | _ => false end.

End Py.

(** ** [sanitize_filename] *)

(** The character class of the regular expression: the nine characters
    less-than, greater-than, colon, double quote (code 34), slash,
    backslash, bar, question mark and star. *)
Definition illegal_chars : list ascii :=
  ["<"; ">"; ":"; "034"; "/"; "\"; "|"; "?"; "*"]%char.

Definition illegal_char (c : ascii) : bool :=
  existsb (Ascii.eqb c) illegal_chars.

Definition legal (c : ascii) : bool := negb (illegal_char c).

(** [re.sub] of that class by the empty string. *)
Definition re_sub_illegal (filename : string) : string :=
  Py.filter legal filename.

(** A string has none of the nine characters. *)
Definition clean_name (s : string) : Prop :=
  Forall (fun c => ~ In c (list_ascii_of_string s)) illegal_chars.

Definition sanitize_filename (filename : string) : string :=
  let clean := re_sub_illegal filename in
  if Py.len clean >? 150 then Py.take 150 clean else clean.

(** ** The error message of a failed run ([convert_file], the [else] branch) *)

(** The test of the [for] loop over [error_lines]. *)
Definition line_matches (line : string) : bool :=
  Py.contains "error" (Py.lower line) || Py.contains "failed" (Py.lower line).

(** The value of [error_msg] after the [for] loop with [break]. *)
Fixpoint scan_error_lines (error_lines : list string) : string :=
  match error_lines with
  | [] => ""
  | line :: rest =>
      if line_matches line then Py.strip line else scan_error_lines rest
  end.

Definition extract_error_msg (stderr : string) : string :=
  let error_lines := Py.split "010"%char stderr in
  let error_msg := scan_error_lines error_lines in
  if Py.falsy error_msg then
    let tail := Py.last_chars 500 stderr in
    if Py.falsy tail then "Unknown error" else tail
  else error_msg.


(** ** Exceptions and results *)

(** The classes of [Exception] the calls of the source raise.  ([except
    Exception] does not catch the asynchronous [KeyboardInterrupt] and
    [SystemExit], which are no [Exception]s and are outside this model.) *)
Inductive exn_class : Type :=
  | OSError
  | TimeoutExpired
  | ZeroDivisionError
  | OtherException.

(** An exception instance; [exn_str e] is [str(e)]. *)
Record exn : Type := mkExn { exn_cls : exn_class; exn_str : string }.

Inductive Res (A : Type) : Type :=
  | Ok (a : A)
  | Raise (e : exn).
Arguments Ok {A} a.
Arguments Raise {A} e.

(** [a > b] on floats. *)
Definition Qgt_bool (a b : Q) : bool := negb (Qle_bool a b).

(** [a / b] on floats. *)
Definition truediv (a b : Q) : Res Q :=
  if Qeq_bool b 0 then Raise (mkExn ZeroDivisionError "float division by zero")
  else Ok (a / b)%Q.

(** [1024 * 1024] *)
Definition MiB : Q := inject_Z (1024 * 1024).

(** [n / (1024 * 1024)] for an integer [n]: the divisor is not zero. *)
Definition to_mb (n : Z) : Q := (inject_Z n / MiB)%Q.

(** ** The operating system interface *)

(** What [subprocess.run] returns. *)
Record CompletedProcess : Type := mkCompleted {
  returncode : Z;
  stdout : string;
  stderr : string
}.

(** The calls the source makes into [os], [os.path], [shutil], [tempfile],
    [subprocess], [time] and the built-in [open], over a world [W].
    Reads leave the world as it is; the others return the next world,
    also when they raise. *)
Class OS (W : Type) : Type := {
  (* os.path, pure *)
  os_path_join : string -> string -> string;
  os_path_basename : string -> string;
  os_path_splitext : string -> string * string;
  (* reads *)
  shutil_which : W -> string -> bool;          (* truthiness of the result *)
  os_path_exists : W -> string -> bool;
  os_path_getmtime : W -> string -> Res Q;
  os_path_getsize : W -> string -> Res Z;
  os_listdir : W -> string -> Res (list string);
  os_walk : W -> string -> list (string * list string * list string);
  (* effects *)
  os_makedirs : W -> string -> Res unit * W;   (* exist_ok=True *)
  tempdir_enter : W -> Res string * W;         (* TemporaryDirectory().__enter__ *)
  tempdir_exit : W -> string -> Res unit * W;  (* its __exit__: the cleanup *)
  shutil_copy2 : W -> string -> string -> Res unit * W;
  subprocess_run : W -> list string -> Z -> Res CompletedProcess * W;
  open_w : W -> string -> Res unit * W;        (* open(path, "w"): create or truncate *)
  write_close : W -> string -> string -> Res unit * W;  (* the writes, then close *)
  time_time : W -> Q * W
}.

(** ** Log records *)

Inductive level : Type := INFO | WARNING | ERROR.

(** What [convert_file] returns as its second component: the size summary
    [f"Ukuran: {output_size:.2f}MB (Kompresi: {compression_ratio:.1f}%)"],
    kept as its two numbers, or an error text. *)
Inductive result_msg : Type :=
  | SizeSummary (output_size compression_ratio : Q)
  | ErrorText (s : string).

(** One constructor per [logging] call of the source, in source order; the
    arguments are the values the f-string interpolates. *)
Inductive message : Type :=
  | MsgFfmpegNotFound                                  (* line 34 *)
  | MsgDownloadFrom                                    (* line 35 *)
  | MsgExtractTo                                       (* line 36 *)
  | MsgNoMp4                                           (* line 138 *)
  | MsgFound (total_files : Z)                         (* line 142 *)
  | MsgConverting (i total_files : Z) (filename : string)  (* line 153 *)
  | MsgSkipped (filename : string)                     (* line 157 *)
  | MsgOk (filename : string) (r : result_msg)         (* line 165 *)
  | MsgFail (filename : string)                        (* line 167 *)
  | MsgCause (r : result_msg)                          (* line 168 *)
  | MsgRuleTop                                         (* line 174 *)
  | MsgReportTitle                                     (* line 175 *)
  | MsgTotal (total_files : Z)                         (* line 176 *)
  | MsgSucceeded (success_count : Z)                   (* line 177 *)
  | MsgFailed (failed_count : Z)                       (* line 178 *)
  | MsgTime (mins secs : Z)                            (* line 179 *)
  | MsgInputSize (total_input_mb : Q)                  (* line 200 *)
  | MsgOutputSize (total_output_mb : Q)                (* line 201 *)
  | MsgSavings (savings savings_percent : Q)           (* line 202 *)
  | MsgSavedIn (output_folder : string)                (* line 204 *)
  | MsgRule.                                           (* line 205 *)

Definition record : Type := level * message.

(** ** Effectful calls, as they are made *)

Inductive call : Type :=
  | CallConvertFile (ffmpeg_path input_path output_path : string)
  | CallMakedirs (path : string)
  | CallTempdirEnter
  | CallTempdirExit (tmp_dir : string)
  | CallCopy2 (src dst : string)
  | CallRun (command : list string) (timeout : Z)
  | CallOpenW (path : string)
  | CallWriteClose (path content : string).

(** ** The monad *)

Section Program.

Context {W : Type} {os : OS W}.

Record state : Type := mkState {
  world : W;
  log : list record;
  calls : list call
}.

Definition M (A : Type) : Type := state -> Res A * state.

Definition ret {A} (a : A) : M A := fun st => (Ok a, st).

Definition bind {A B} (m : M A) (k : A -> M B) : M B :=
  fun st =>
    match m st with
    | (Ok a, st') => k a st'
    | (Raise e, st') => (Raise e, st')
    end.

(** [try: m  except Exception as e: h e] *)
Definition try_except {A} (m : M A) (h : exn -> M A) : M A :=
  fun st =>
    match m st with
    | (Ok a, st') => (Ok a, st')
    | (Raise e, st') => h e st'
    end.

Definition raise {A} (e : exn) : M A := fun st => (Raise e, st).

Definition of_res {A} (r : Res A) : M A := fun st => (r, st).

(** A read of the world. *)
Definition read {A} (f : W -> A) : M A := fun st => (Ok (f (world st)), st).

(** A read that may raise. *)
Definition read_res {A} (f : W -> Res A) : M A := fun st => (f (world st), st).

(** An effect on the world, recorded in [calls]. *)
Definition effect {A} (c : call) (op : W -> Res A * W) : M A :=
  fun st =>
    let (r, w) := op (world st) in
    (r, mkState w (log st) (calls st ++ [c])).

(** Entering a function of the source, recorded in [calls]. *)
Definition enter (c : call) : M unit :=
  fun st => (Ok tt, mkState (world st) (log st) (calls st ++ [c])).

Definition logging (l : level) (m : message) : M unit :=
  fun st => (Ok tt, mkState (world st) (log st ++ [(l, m)]) (calls st)).

Definition clock : M Q :=
  fun st =>
    let (t, w) := time_time (world st) in
    (Ok t, mkState w (log st) (calls st)).

End Program.

Arguments state W : clear implicits.
Arguments M W A : clear implicits.

Declare Scope py_scope.
Delimit Scope py_scope with py.
Notation "x <- m ;; k" := (bind m (fun x => k))
  (at level 61, m at next level, right associativity) : py_scope.
Notation "m ;; k" := (bind m (fun _ => k))
  (at level 61, right associativity) : py_scope.

Local Open Scope py_scope.

(** ** The program *)

Section Converter.

Context {W : Type} {os : OS W}.

(** *** [get_ffmpeg_path] *)

Definition ffmpeg_candidates : list string :=
  [ "ffmpeg";
    "C:\ffmpeg\bin\ffmpeg.exe";
    "C:\Program Files\ffmpeg\bin\ffmpeg.exe";
    "C:\Program Files (x86)\ffmpeg\bin\ffmpeg.exe" ].

(** [None] is Python's [None]. *)
Definition get_ffmpeg_path : M W (option string) :=
  found <- read (fun w =>
             find (fun path => shutil_which w path || os_path_exists w path)
                  ffmpeg_candidates) ;;
  match found with
  | Some path => ret (Some path)
  | None =>
      logging ERROR MsgFfmpegNotFound ;;
      logging INFO MsgDownloadFrom ;;
      logging INFO MsgExtractTo ;;
      ret None
  end.

(** *** [convert_file] *)

(** [with tempfile.TemporaryDirectory() as tmp_dir: body]: the directory
    is removed on every way out of [body]; an exception of the removal
    replaces the outcome of [body]. *)
Definition with_TemporaryDirectory {A} (body : string -> M W A) : M W A :=
  tmp_dir <- effect CallTempdirEnter tempdir_enter ;;
  fun st =>
    let (r, st1) := body tmp_dir st in
    match effect (CallTempdirExit tmp_dir)
                 (fun w => tempdir_exit w tmp_dir) st1 with
    | (Ok _, st2) => (r, st2)
    | (Raise e, st2) => (Raise e, st2)
    end.

(** The argument list given to [subprocess.run]. *)
Definition ffmpeg_command (ffmpeg_path tmp_input tmp_output : string)
  : list string :=
  [ ffmpeg_path;
    "-i"; tmp_input;
    "-c:v"; "mpeg2video";
    "-b:v"; "600k";
    "-maxrate"; "800k";
    "-bufsize"; "1200k";
    "-g"; "15";
    "-bf"; "0";
    "-vf"; "scale=640:360";
    "-r"; "24";
    "-c:a"; "mp2";
    "-b:a"; "48k";
    "-ar"; "32000";
    "-ac"; "1";
    "-threads"; "0";
    "-f"; "mpeg";
    tmp_output ].

(** The body of the [with] statement. *)
Definition convert_in_tmp (ffmpeg_path input_path output_path tmp_dir : string)
  : M W (bool * result_msg) :=
  let tmp_input := os_path_join tmp_dir "input.mp4" in
  effect (CallCopy2 input_path tmp_input)
         (fun w => shutil_copy2 w input_path tmp_input) ;;
  let command :=
    ffmpeg_command ffmpeg_path tmp_input (os_path_join tmp_dir "output.mpeg") in
  result <- effect (CallRun command 600)
                   (fun w => subprocess_run w command 600) ;;
  if returncode result =? 0 then
    let tmp_output := os_path_join tmp_dir "output.mpeg" in
    effect (CallCopy2 tmp_output output_path)
           (fun w => shutil_copy2 w tmp_output output_path) ;;
    input_bytes <- read_res (fun w => os_path_getsize w input_path) ;;
    let input_size := to_mb input_bytes in
    output_bytes <- read_res (fun w => os_path_getsize w output_path) ;;
    let output_size := to_mb output_bytes in
    q <- of_res (truediv output_size input_size) ;;
    let compression_ratio := ((1 - q) * 100)%Q in
    ret (true, SizeSummary output_size compression_ratio)
  else
    ret (false, ErrorText (extract_error_msg (stderr result))).

Definition convert_file (ffmpeg_path input_path output_path : string)
  : M W (bool * result_msg) :=
  enter (CallConvertFile ffmpeg_path input_path output_path) ;;
  try_except
    (with_TemporaryDirectory
       (convert_in_tmp ffmpeg_path input_path output_path))
    (fun e => ret (false, ErrorText (exn_str e))).

(** *** [convert_folder] *)

(** [os.path.join(output_folder, os.path.splitext(sanitize_filename(
    os.path.basename(input_path)))[0] + ".mpeg")]: lines 149-151, and
    again lines 212-213. *)
Definition derived_output_path (output_folder input_path : string) : string :=
  let filename := os_path_basename input_path in
  let safe_name := sanitize_filename filename in
  os_path_join output_folder (fst (os_path_splitext safe_name) ++ ".mpeg").

(** The list built by the two nested [for] loops over [os.walk]. *)
Definition collect_mp4 (w : W) (input_folder : string) : list string :=
  flat_map
    (fun '(root, _, files) =>
       map (os_path_join root)
           (filter (fun file => Py.endswith (Py.lower file) ".mp4") files))
    (os_walk w input_folder).

(** The test of the skip, evaluated left to right with [and]. *)
Definition already_converted (input_path output_path : string) : M W bool :=
  present <- read (fun w => os_path_exists w output_path) ;;
  if (present : bool) then
    out_mtime <- read_res (fun w => os_path_getmtime w output_path) ;;
    in_mtime <- read_res (fun w => os_path_getmtime w input_path) ;;
    ret (Qgt_bool out_mtime in_mtime)
  else ret false.

(** One iteration of the conversion loop; returns the new
    [success_count]. *)
Definition convert_one (ffmpeg_path output_folder : string) (total_files : Z)
    (i : Z) (input_path : string) (success_count : Z) : M W Z :=
  let filename := os_path_basename input_path in
  let output_path := derived_output_path output_folder input_path in
  logging INFO (MsgConverting i total_files filename) ;;
  skip <- already_converted input_path output_path ;;
  if (skip : bool) then
    logging INFO (MsgSkipped filename) ;;
    ret (success_count + 1)
  else
    r <- convert_file ffmpeg_path input_path output_path ;;
    let '(success, result_msg) := r in
    if (success : bool) then
      logging INFO (MsgOk filename result_msg) ;;
      ret (success_count + 1)
    else
      logging ERROR (MsgFail filename) ;;
      logging ERROR (MsgCause result_msg) ;;
      ret success_count.

(** [for i, input_path in enumerate(mp4_files, 1)], from index [i]. *)
Fixpoint convert_loop (ffmpeg_path output_folder : string) (total_files : Z)
    (i : Z) (mp4_files : list string) (success_count : Z) : M W Z :=
  match mp4_files with
  | [] => ret success_count
  | input_path :: rest =>
      success_count' <- convert_one ffmpeg_path output_folder total_files
                          i input_path success_count ;;
      convert_loop ffmpeg_path output_folder total_files (i + 1) rest
                   success_count'
  end.

(** [for input_path in mp4_files: if exists: total_input_size += getsize] *)
Fixpoint sum_input_sizes (mp4_files : list string) (total_input_size : Z)
  : M W Z :=
  match mp4_files with
  | [] => ret total_input_size
  | input_path :: rest =>
      present <- read (fun w => os_path_exists w input_path) ;;
      if (present : bool) then
        n <- read_res (fun w => os_path_getsize w input_path) ;;
        sum_input_sizes rest (total_input_size + n)
      else sum_input_sizes rest total_input_size
  end.

(** [for file in listing: if file.endswith(".mpeg"): total_output_size +=
    getsize(join(output_folder, file))] *)
Fixpoint sum_output_sizes (output_folder : string) (listing : list string)
    (total_output_size : Z) : M W Z :=
  match listing with
  | [] => ret total_output_size
  | file :: rest =>
      if Py.endswith file ".mpeg" then
        n <- read_res (fun w =>
               os_path_getsize w (os_path_join output_folder file)) ;;
        sum_output_sizes output_folder rest (total_output_size + n)
      else sum_output_sizes output_folder rest total_output_size
  end.

(** Lines 181-202: the space report. *)
Definition report_sizes (output_folder : string) (mp4_files : list string)
    (success_count : Z) : M W unit :=
  if success_count >? 0 then
    total_input_size <- sum_input_sizes mp4_files 0 ;;
    listing <- read_res (fun w => os_listdir w output_folder) ;;
    total_output_size <- sum_output_sizes output_folder listing 0 ;;
    let total_input_mb := to_mb total_input_size in
    let total_output_mb := to_mb total_output_size in
    let savings := (total_input_mb - total_output_mb)%Q in
    savings_percent <-
      (if Qgt_bool total_input_mb 0 then
         q <- of_res (truediv savings total_input_mb) ;;
         ret (q * 100)%Q
       else ret 0%Q) ;;
    logging INFO (MsgInputSize total_input_mb) ;;
    logging INFO (MsgOutputSize total_output_mb) ;;
    logging INFO (MsgSavings savings savings_percent)
  else ret tt.

(** The lines written to [failed_files.txt] after its heading, from
    index [i]: one per file whose derived output does not exist. *)
Fixpoint failed_lines (w : W) (output_folder : string) (i : Z)
    (mp4_files : list string) : string :=
  match mp4_files with
  | [] => ""
  | input_path :: rest =>
      let filename := os_path_basename input_path in
      let output_path := derived_output_path output_folder input_path in
      (if os_path_exists w output_path then ""
       else Py.str_of_int i ++ ". " ++ filename ++ String "010" "")
      ++ failed_lines w output_folder (i + 1) rest
  end.

Definition failed_heading : string :=
  "File yang gagal dikonversi:" ++ String "010" "".

(** Lines 207-215: the list of failed files. *)
Definition save_failed_list (output_folder : string) (mp4_files : list string)
    (total_files success_count : Z) : M W unit :=
  if success_count <? total_files then
    let path := os_path_join output_folder "failed_files.txt" in
    effect (CallOpenW path) (fun w => open_w w path) ;;
    body <- read (fun w => failed_lines w output_folder 1 mp4_files) ;;
    let content := failed_heading ++ body in
    effect (CallWriteClose path content) (fun w => write_close w path content)
  else ret tt.

(** [divmod(elapsed, 60)], then [int] of each part. *)
Definition mins_secs (elapsed : Q) : Z * Z :=
  let mins := Qfloor (elapsed / 60) in
  (mins, Qfloor (elapsed - inject_Z mins * 60)).

(** Lines 170-215: the report, then the list of failed files. *)
Definition report_and_list (output_folder : string) (mp4_files : list string)
    (total_files : Z) (start_time : Q) (success_count : Z) : M W unit :=
  now <- clock ;;
  let elapsed := (now - start_time)%Q in
  let '(mins, secs) := mins_secs elapsed in
  logging INFO MsgRuleTop ;;
  logging INFO MsgReportTitle ;;
  logging INFO (MsgTotal total_files) ;;
  logging INFO (MsgSucceeded success_count) ;;
  logging INFO (MsgFailed (total_files - success_count)) ;;
  logging INFO (MsgTime mins secs) ;;
  report_sizes output_folder mp4_files success_count ;;
  logging INFO (MsgSavedIn output_folder) ;;
  logging INFO MsgRule ;;
  save_failed_list output_folder mp4_files total_files success_count.

(** Lines 124-125: the output folder in use; [None] is the default
    argument. *)
Definition effective_output_folder (input_folder : string)
    (output_folder : option string) : string :=
  match output_folder with
  | None => os_path_join input_folder "MPEG_360p_Output"
  | Some o => o
  end.

Definition convert_folder (input_folder : string) (output_folder : option string)
  : M W unit :=
  ffmpeg_path <- get_ffmpeg_path ;;
  match ffmpeg_path with
  | None => ret tt
  | Some ffmpeg_path =>
      let output_folder := effective_output_folder input_folder output_folder in
      effect (CallMakedirs output_folder)
             (fun w => os_makedirs w output_folder) ;;
      mp4_files <- read (fun w => collect_mp4 w input_folder) ;;
      match mp4_files with
      | [] => logging WARNING MsgNoMp4
      | _ :: _ =>
          let total_files := Z.of_nat (List.length mp4_files) in
          logging INFO (MsgFound total_files) ;;
          let success_count := 0 in
          start_time <- clock ;;
          success_count <- convert_loop ffmpeg_path output_folder total_files
                             1 mp4_files success_count ;;
          report_and_list output_folder mp4_files total_files start_time
                          success_count
      end
  end.

(** The output exists and its modification time is strictly greater than
    that of the input. *)
Definition fresh_output (w : W) (input_path output_path : string) : Prop :=
  os_path_exists w output_path = true
  /\ exists out_mtime in_mtime : Q,
       os_path_getmtime w output_path = Ok out_mtime
       /\ os_path_getmtime w input_path = Ok in_mtime
       /\ (in_mtime < out_mtime)%Q.

(** The output does not exist, or its modification time is not strictly
    greater than that of the input. *)
Definition stale_or_missing (w : W) (input_path output_path : string) : Prop :=
  os_path_exists w output_path = false
  \/ exists out_mtime in_mtime : Q,
       os_path_getmtime w output_path = Ok out_mtime
       /\ os_path_getmtime w input_path = Ok in_mtime
       /\ (out_mtime <= in_mtime)%Q.

End Converter.

(** ** A small executable operating system

    A flat POSIX-like file system, a scripted transcoding tool and a clock,
    on which the program runs by evaluation. *)

Module Sim.

(** [p[a:b]] for [0 <= a <= b]. *)
Definition slice (a b : Z) (p : string) : string :=
  Py.take (Z.to_nat (b - a)) (Py.drop (Z.to_nat a) p).

(** [posixpath.join] of two components. *)
Definition join (a b : string) : string :=
  if Py.startswith b "/" then b
  else if Py.falsy a || Py.endswith a "/" then a ++ b
  else a ++ "/" ++ b.

(** [posixpath.basename] *)
Definition basename (p : string) : string :=
  Py.drop (Z.to_nat (Py.rfind "/" p + 1)) p.

(** [head.rstrip('/')] *)
Fixpoint rstrip_slashes (s : string) : string :=
  match s with
  | EmptyString => ""
  | String c r =>
      match rstrip_slashes r with
      | EmptyString => if Ascii.eqb c "/" then "" else String c ""
      | r' => String c r'
      end
  end.

(** [posixpath.dirname] *)
Definition dirname (p : string) : string :=
  let head := Py.take (Z.to_nat (Py.rfind "/" p + 1)) p in
  if Py.all_chars (Ascii.eqb "/") head then head else rstrip_slashes head.

(** [posixpath.splitext]: the extension starts at the last dot of the
    last component, unless only dots precede it there. *)
Definition splitext (p : string) : string * string :=
  let sepIndex := Py.rfind "/" p in
  let dotIndex := Py.rfind "." p in
  if dotIndex >? sepIndex then
    if Py.all_chars (Ascii.eqb ".") (slice (sepIndex + 1) dotIndex p)
    then (p, "")
    else (Py.take (Z.to_nat dotIndex) p, Py.drop (Z.to_nat dotIndex) p)
  else (p, "").

Inductive node : Type :=
  | File (mtime : Q) (size : Z)
  | Dir.

(** What the tool does when it is launched. *)
Inductive run : Type :=
  | Exit (code : Z) (diagnostics : string) (produced : option Z)
  | Timeout
  | LaunchError.

Record world : Type := mkWorld {
  fs : list (string * node);      (* full path, node *)
  on_path : list string;          (* names [shutil.which] resolves *)
  script : list run;              (* one entry per launch of the tool *)
  now : Q;                        (* the clock *)
  next_tmp : Z;                   (* numbering of temporary directories *)
  busy_tmp : bool                 (* removing a temporary directory fails *)
}.

Definition lookup (w : world) (p : string) : option node :=
  match find (fun e => String.eqb (fst e) p) (fs w) with
  | Some e => Some (snd e)
  | None => None
  end.

Definition with_fs (w : world) (f : list (string * node)) : world :=
  mkWorld f (on_path w) (script w) (now w) (next_tmp w) (busy_tmp w).

Definition store (w : world) (p : string) (n : node) : world :=
  with_fs w (filter (fun e => negb (String.eqb (fst e) p)) (fs w) ++ [(p, n)])%list.

Definition no_such_file (p : string) : exn :=
  mkExn OSError ("[Errno 2] No such file or directory: '" ++ p ++ "'").

Definition is_dir (n : node) : bool :=
  match n with Dir => true | File _ _ => false end.

Definition names_in (w : world) (d : string) (dirs : bool) : list string :=
  map (fun e => basename (fst e))
      (filter (fun e => String.eqb (dirname (fst e)) d
                        && Bool.eqb (is_dir (snd e)) dirs) (fs w)).

Definition walk (w : world) (top : string)
  : list (string * list string * list string) :=
  match lookup w top with
  | Some Dir =>
      map (fun d => (d, names_in w d true, names_in w d false))
          (top :: map fst (filter (fun e => is_dir (snd e)
                                   && Py.startswith (fst e) (top ++ "/"))
                                  (fs w)))
  | _ => []
  end.

Definition getmtime (w : world) (p : string) : Res Q :=
  match lookup w p with
  | Some (File m _) => Ok m
  | Some Dir => Ok 0%Q
  | None => Raise (no_such_file p)
  end.

Definition getsize (w : world) (p : string) : Res Z :=
  match lookup w p with
  | Some (File _ s) => Ok s
  | Some Dir => Ok 4096
  | None => Raise (no_such_file p)
  end.

Definition listdir (w : world) (d : string) : Res (list string) :=
  match lookup w d with
  | Some Dir => Ok (names_in w d true ++ names_in w d false)%list
  | _ => Raise (no_such_file d)
  end.

Definition makedirs (w : world) (p : string) : Res unit * world :=
  match lookup w p with
  | Some Dir => (Ok tt, w)
  | Some (File _ _) =>
      (Raise (mkExn OSError ("[Errno 17] File exists: '" ++ p ++ "'")), w)
  | None => (Ok tt, store w p Dir)
  end.

Definition mkdtemp (w : world) : Res string * world :=
  let d := "/tmp/tmp" ++ Py.str_of_int (next_tmp w) in
  (Ok d, mkWorld (fs w ++ [(d, Dir)])%list (on_path w) (script w) (now w)
                 (next_tmp w + 1) (busy_tmp w)).

Definition rmtree (w : world) (d : string) : Res unit * world :=
  if busy_tmp w then
    (Raise (mkExn OSError ("[WinError 32] The process cannot access the file: '"
                           ++ d ++ "'")), w)
  else
    (Ok tt,
     with_fs w (filter (fun e => negb (String.eqb (fst e) d
                                       || Py.startswith (fst e) (d ++ "/")))
                       (fs w))).

(** [copy2] keeps the modification time of the source. *)
Definition copy2 (w : world) (src dst : string) : Res unit * world :=
  match lookup w src with
  | Some (File m s) => (Ok tt, store w dst (File m s))
  | _ => (Raise (no_such_file src), w)
  end.

Definition tick (w : world) (dt : Q) : world :=
  mkWorld (fs w) (on_path w) (script w) (now w + dt)%Q (next_tmp w) (busy_tmp w).

Definition pop (w : world) : world :=
  mkWorld (fs w) (on_path w) (tl (script w)) (now w) (next_tmp w) (busy_tmp w).

(** The tool writes its last argument when it produces an output. *)
Definition launch (w : world) (command : list string) (timeout : Z)
  : Res CompletedProcess * world :=
  match script w with
  | Exit code diagnostics produced :: _ =>
      let w1 := tick (pop w) 1 in
      (Ok (mkCompleted code "" diagnostics),
       match produced with
       | Some size => store w1 (last command "") (File (now w1) size)
       | None => w1
       end)
  | Timeout :: _ =>
      (Raise (mkExn TimeoutExpired
                ("Command timed out after " ++ Py.str_of_int timeout
                 ++ " seconds")),
       tick (pop w) (inject_Z timeout))
  | LaunchError :: _ | [] =>
      (Raise (no_such_file (hd "" command)), pop w)
  end.

Definition create (w : world) (p : string) : Res unit * world :=
  match lookup w (dirname p) with
  | Some Dir => (Ok tt, store w p (File (now w) 0))
  | _ => (Raise (no_such_file p), w)
  end.

Definition write (w : world) (p content : string) : Res unit * world :=
  (Ok tt, store w p (File (now w) (Py.len content))).

Definition time (w : world) : Q * world := (now w, tick w 1).

#[global] Instance sim_os : OS world := {|
  os_path_join := join;
  os_path_basename := basename;
  os_path_splitext := splitext;
  shutil_which := fun w p => existsb (String.eqb p) (on_path w);
  os_path_exists := fun w p =>
    match lookup w p with Some _ => true | None => false end;
  os_path_getmtime := getmtime;
  os_path_getsize := getsize;
  os_listdir := listdir;
  os_walk := walk;
  os_makedirs := makedirs;
  tempdir_enter := mkdtemp;
  tempdir_exit := rmtree;
  shutil_copy2 := copy2;
  subprocess_run := launch;
  open_w := create;
  write_close := write;
  time_time := time
|}.

(** The state a run starts from. *)
Definition boot (w : world) : state world := mkState w [] [].

End Sim.

(** ** Vocabulary of the statements *)

(** The first line of the diagnostic stream that has "error" or "failed" in
    any letter case, as the specification words it. *)
Definition spec_first_matching_line (stderr : string) : option string :=
  find line_matches (Py.split "010"%char stderr).

(** A launch of the external tool. *)
Definition is_run (c : call) : bool :=
  match c with CallRun _ _ => true | _ => false end.

Definition count_runs (cs : list call) : nat :=
  List.length (filter is_run cs).

(** The end of a line. *)
Definition nl : string := String "010" "".

(** The records by which the loop marks a file as counted a success
    (skipped, or converted) and as failed. *)
Definition is_success_mark (r : record) : bool :=
  match snd r with MsgSkipped _ | MsgOk _ _ => true | _ => false end.

Definition is_fail_mark (r : record) : bool :=
  match snd r with MsgFail _ => true | _ => false end.

(** The records of the conversion loop. *)
Definition loop_record (r : record) : bool :=
  match snd r with
  | MsgConverting _ _ _ | MsgSkipped _ | MsgOk _ _ | MsgFail _ | MsgCause _ => true
  | _ => false
  end.

(** The records of the report after its counters and its time. *)
Definition tail_record (r : record) : bool :=
  match snd r with
  | MsgInputSize _ | MsgOutputSize _ | MsgSavings _ _ | MsgSavedIn _ | MsgRule => true
  | _ => false
  end.

(** The three records of the space report. *)
Definition size_record (r : record) : bool :=
  match snd r with
  | MsgInputSize _ | MsgOutputSize _ | MsgSavings _ _ => true
  | _ => false
  end.

(** The records of the end-of-run report. *)
Definition report_record (r : record) : bool :=
  match snd r with
  | MsgRuleTop | MsgReportTitle | MsgTotal _ | MsgSucceeded _ | MsgFailed _
  | MsgTime _ _ | MsgInputSize _ | MsgOutputSize _ | MsgSavings _ _
  | MsgSavedIn _ | MsgRule => true
  | _ => false
  end.

(** How many elements of [l] satisfy [p]. *)
Definition count {A} (p : A -> bool) (l : list A) : Z :=
  Z.of_nat (List.length (filter p l)).

(** The calls [convert_file] makes. *)
Definition converter_call (c : call) : bool :=
  match c with
  | CallConvertFile _ _ _ | CallTempdirEnter | CallTempdirExit _
  | CallCopy2 _ _ | CallRun _ _ => true
  | _ => false
  end.

(** The calls that write the list of failed files. *)
Definition manifest_call (c : call) : bool :=
  match c with
  | CallOpenW _ | CallWriteClose _ _ => true
  | _ => false
  end.

(** The three records logged when the tool is not found. *)
Definition guidance : list record :=
  [ (ERROR, MsgFfmpegNotFound); (INFO, MsgDownloadFrom); (INFO, MsgExtractTo) ].

Section Vocabulary.

Context {W : Type} {os : OS W}.

(** [enumerate(l, start)] *)
Fixpoint enumerate {A} (start : Z) (l : list A) : list (Z * A) :=
  match l with
  | [] => []
  | x :: rest => (start, x) :: enumerate (start + 1) rest
  end.

(** The line of the list of failed files for the [i]-th input. *)
Definition failed_line (entry : Z * string) : string :=
  Py.str_of_int (fst entry) ++ ". " ++ os_path_basename (snd entry) ++ nl.

(** The inputs on the list of failed files, with their indices: those whose
    derived output does not exist in [w]. *)
Definition listed_entries (w : W) (output_folder : string)
    (mp4_files : list string) : list (Z * string) :=
  filter (fun entry =>
            negb (os_path_exists w
                    (derived_output_path output_folder (snd entry))))
         (enumerate 1 mp4_files).

(** The list of failed files as the specification words it: one line per
    input whose derived output does not exist, with its index from 1 in the
    order of discovery. *)
Definition spec_failed_lines (w : W) (output_folder : string)
    (mp4_files : list string) : string :=
  Py.concat (map failed_line (listed_entries w output_folder mp4_files)).

(** The sum of the sizes of [paths]; the first size that cannot be read
    raises. *)
Fixpoint total_size (w : W) (paths : list string) : Res Z :=
  match paths with
  | [] => Ok 0
  | p :: rest =>
      match os_path_getsize w p with
      | Ok n =>
          match total_size w rest with
          | Ok m => Ok (n + m)
          | Raise e => Raise e
          end
      | Raise e => Raise e
      end
  end.

(** The inputs that still exist. *)
Definition existing_inputs (w : W) (mp4_files : list string) : list string :=
  filter (os_path_exists w) mp4_files.

(** The entries of the output folder whose name ends with ".mpeg". *)
Definition mpeg_outputs (output_folder : string) (listing : list string)
  : list string :=
  map (os_path_join output_folder)
      (filter (fun file => Py.endswith file ".mpeg") listing).

(** The savings percentage, zero when the total input size is zero. *)
Definition spec_savings_percent (total_input_size total_output_size : Z) : Q :=
  if total_input_size <=? 0 then 0%Q
  else ((to_mb total_input_size - to_mb total_output_size)
        / to_mb total_input_size * 100)%Q.

(** The six records that open the report. *)
Definition report_head (total_files success_count : Z) (mins secs : Z)
  : list record :=
  [ (INFO, MsgRuleTop);
    (INFO, MsgReportTitle);
    (INFO, MsgTotal total_files);
    (INFO, MsgSucceeded success_count);
    (INFO, MsgFailed (total_files - success_count));
    (INFO, MsgTime mins secs) ].

(** The three records of the space report, for given total sizes in
    bytes. *)
Definition size_records (total_input_size total_output_size : Z) : list record :=
  [ (INFO, MsgInputSize (to_mb total_input_size));
    (INFO, MsgOutputSize (to_mb total_output_size));
    (INFO, MsgSavings (to_mb total_input_size - to_mb total_output_size)%Q
             (spec_savings_percent total_input_size total_output_size)) ].

(** The two records that close the report. *)
Definition report_close (output_folder : string) : list record :=
  [ (INFO, MsgSavedIn output_folder); (INFO, MsgRule) ].

(** A call that writes the list of failed files: the opening of
    [failed_files.txt] in the output folder, or the writing of the heading
    and of the lines of the inputs whose output does not exist in the world
    [w1] in which the list is written, [w'] being the world after it. *)
Definition manifest_write (w' : W) (output_folder : string)
    (mp4_files : list string) (c : call) : Prop :=
  let path := os_path_join output_folder "failed_files.txt" in
  c = CallOpenW path
  \/ exists w1 : W,
       let content :=
         (failed_heading ++ spec_failed_lines w1 output_folder mp4_files)%string in
       c = CallWriteClose path content
       /\ w' = snd (write_close w1 path content).

End Vocabulary.

(** ** Worlds of the examples *)

(** A world with one input and a given script of the tool. *)
Definition one_clip (script : list Sim.run) (busy : bool) : Sim.world :=
  Sim.mkWorld
    [ ("/in", Sim.Dir); ("/out", Sim.Dir);
      ("/in/clip.mp4", Sim.File 10 4194304) ]
    ["ffmpeg"] script 100 0 busy.

(** The only input makes the tool exit with 1. *)
Definition all_fail : Sim.world :=
  one_clip [Sim.Exit 1 "Error: invalid data" None] false.

(** A diagnostic stream whose only matching line starts with blanks. *)
Definition indented_diagnostics : string :=
  "Stream mapping:" ++ nl ++ "  Error: codec not found" ++ nl.

(** A diagnostic stream whose matching line has no blanks around it. *)
Definition plain_diagnostics : string :=
  "Stream mapping:" ++ nl ++ "Error: codec not found" ++ nl.

(** An output that exists and is newer than its input. *)
Definition fresh_world : Sim.world :=
  Sim.mkWorld
    [ ("/in", Sim.Dir); ("/out", Sim.Dir);
      ("/in/clip.mp4", Sim.File 10 4194304);
      ("/out/clip.mpeg", Sim.File 20 1048576) ]
    ["ffmpeg"] [] 100 0 false.

(** An output that exists and is older than its input. *)
Definition stale_output : Sim.world :=
  Sim.mkWorld
    [ ("/in", Sim.Dir); ("/out", Sim.Dir);
      ("/in/clip.mp4", Sim.File 10 4194304);
      ("/out/clip.mpeg", Sim.File 5 1048576) ]
    ["ffmpeg"] [Sim.Exit 0 "" (Some 1048576)] 100 0 false.

(** Two inputs, [a.mp4] converts and [b.mp4] makes the tool exit with 1. *)
Definition two_files : Sim.world :=
  Sim.mkWorld
    [ ("/in", Sim.Dir);
      ("/in/a.mp4", Sim.File 10 4194304);
      ("/in/b.mp4", Sim.File 11 2097152) ]
    ["ffmpeg"]
    [ Sim.Exit 0 "" (Some 1048576);
      Sim.Exit 1 "Error: invalid data" None ]
    100 0 false.

(** As [two_files], with an output folder that holds an output of
    [b.mp4] older than [b.mp4]. *)
Definition stale_and_failing : Sim.world :=
  Sim.mkWorld
    [ ("/in", Sim.Dir); ("/out", Sim.Dir);
      ("/in/a.mp4", Sim.File 10 4194304);
      ("/in/b.mp4", Sim.File 11 2097152);
      ("/out/b.mpeg", Sim.File 5 524288) ]
    ["ffmpeg"]
    [ Sim.Exit 0 "" (Some 1048576);
      Sim.Exit 1 "Error: invalid data" None ]
    100 0 false.

(** No candidate of [get_ffmpeg_path] resolves. *)
Definition no_tool : Sim.world :=
  Sim.mkWorld
    [ ("/in", Sim.Dir); ("/in/clip.mp4", Sim.File 10 4194304) ]
    [] [] 100 0 false.

(** An input folder without any video. *)
Definition no_videos : Sim.world :=
  Sim.mkWorld
    [ ("/in", Sim.Dir); ("/in/notes.txt", Sim.File 10 120) ]
    ["ffmpeg"] [] 100 0 false.

(** ** [main]: the two folders it passes on (lines 228-248)

    [sys.argv] and the lines waiting on the standard input are arguments;
    the lines left unread are returned with the result. *)

(** The character of the drag-and-drop quotes. *)
Definition double_quote : string := String "034" "".

(** [s[1:-1]] *)
Definition slice_1_m1 (s : string) : string :=
  Py.take (String.length s - 2) (Py.drop 1 s).

(** Lines 235-236, and again lines 245-248: a string that starts and ends
    with a double quote loses its first and its last character. *)
Definition strip_drag_quotes (s : string) : string :=
  if Py.startswith s double_quote && Py.endswith s double_quote
  then slice_1_m1 s else s.

(** [input(prompt)]: the next line, or [EOFError]. *)
Definition builtin_input (stdin : list string) : Res string * list string :=
  match stdin with
  | line :: rest => (Ok line, rest)
  | [] => (Raise (mkExn OtherException "EOF when reading a line"), [])
  end.

(** [sys.argv[k]] for [k < len(sys.argv)]. *)
Definition argv_at (argv : list string) (k : nat) : string := nth k argv "".

(** The values of [input_folder] and [output_folder] when line 250 is
    reached ([None] is Python's [None]). *)
Definition main_folders (argv stdin : list string)
  : Res (string * option string) * list string :=
  let '(first, stdin1) :=
    if Z.of_nat (List.length argv) >? 1 then (Ok (argv_at argv 1), stdin)
    else match builtin_input stdin with
         | (Ok line, rest) => (Ok (Py.strip line), rest)
         | (Raise e, rest) => (Raise e, rest)
         end in
  match first with
  | Raise e => (Raise e, stdin1)
  | Ok input_folder =>
      let input_folder := strip_drag_quotes input_folder in
      if Z.of_nat (List.length argv) >? 2
      then (Ok (input_folder, Some (argv_at argv 2)), stdin1)
      else match builtin_input stdin1 with
           | (Raise e, rest) => (Raise e, rest)
           | (Ok line, rest) =>
               let output_folder_input := Py.strip line in
               if Py.falsy output_folder_input
               then (Ok (input_folder, None), rest)
               else (Ok (input_folder,
                         Some (strip_drag_quotes output_folder_input)), rest)
           end
  end.

(** ** More vocabulary *)

Definition is_tempdir_exit (c : call) : bool :=
  match c with CallTempdirExit _ => true | _ => false end.

Definition is_tempdir_enter (c : call) : bool :=
  match c with CallTempdirEnter => true | _ => false end.

(** The record that announces a file, [[i/total] Mengkonversi: name]. *)
Definition is_progress (r : record) : bool :=
  match snd r with MsgConverting _ _ _ => true | _ => false end.

Section MoreVocabulary.

Context {W : Type} {os : OS W}.

(** The test of [get_ffmpeg_path] on one candidate. *)
Definition resolves (w : W) (path : string) : bool :=
  shutil_which w path || os_path_exists w path.

(** The two records of a skipped file. *)
Definition skip_records (total_files : Z) (entry : Z * string) : list record :=
  [ (INFO, MsgConverting (fst entry) total_files
             (os_path_basename (snd entry)));
    (INFO, MsgSkipped (os_path_basename (snd entry))) ].

(** The progress record of a file. *)
Definition progress_record (total_files : Z) (entry : Z * string) : record :=
  (INFO, MsgConverting (fst entry) total_files (os_path_basename (snd entry))).

(** [os.path.splitext] splits: the two parts, put together, are its
    argument. *)
Definition splitext_splits : Prop :=
  forall s : string,
    s = (fst (os_path_splitext s) ++ snd (os_path_splitext s))%string.

(** The name of the output: the stem of the sanitized name, and ".mpeg". *)
Definition output_stem (input_path : string) : string :=
  fst (os_path_splitext (sanitize_filename (os_path_basename input_path))).

End MoreVocabulary.

(** ** More worlds *)

(** The input is an empty file; the tool exits with 0 all the same. *)
Definition empty_clip : Sim.world :=
  Sim.mkWorld
    [ ("/in", Sim.Dir); ("/out", Sim.Dir);
      ("/in/clip.mp4", Sim.File 10 0) ]
    ["ffmpeg"] [Sim.Exit 0 "" (Some 1024)] 100 0 false.

(** The output of an input that is gone. *)
Definition input_gone : Sim.world :=
  Sim.mkWorld
    [ ("/in", Sim.Dir); ("/out", Sim.Dir);
      ("/out/clip.mpeg", Sim.File 20 1048576) ]
    ["ffmpeg"] [] 100 0 false.

(** The tool is installed in the second place of the list only. *)
Definition tool_in_c_ffmpeg : Sim.world :=
  Sim.mkWorld
    [ ("/in", Sim.Dir); ("C:\ffmpeg\bin\ffmpeg.exe", Sim.File 1 1000) ]
    [] [] 100 0 false.

(** The output folder asked for is a file. *)
Definition output_is_file : Sim.world :=
  Sim.mkWorld
    [ ("/in", Sim.Dir); ("/in/clip.mp4", Sim.File 10 4194304);
      ("/out", Sim.File 3 10) ]
    ["ffmpeg"] [] 100 0 false.

(** * Properties *)

Local Open Scope list_scope.

(** ** Strings *)

Module PyFacts.

Lemma take_length_le (n : nat) (s : string) :
  (String.length (Py.take n s) <= n)%nat.
Proof.
  revert s; induction n as [|n IH]; intros [|c r]; simpl; try lia.
  specialize (IH r); lia.
Qed.

Lemma take_all (n : nat) (s : string) :
  (String.length s <= n)%nat -> Py.take n s = s.
Proof.
  revert s; induction n as [|n IH]; intros [|c r]; simpl; intros H;
    try reflexivity; try lia.
  f_equal; apply IH; lia.
Qed.

Lemma drop_length (n : nat) (s : string) :
  String.length (Py.drop n s) = (String.length s - n)%nat.
Proof.
  revert s; induction n as [|n IH]; intros [|c r]; simpl; auto.
Qed.

Lemma all_chars_take (p : ascii -> bool) (n : nat) (s : string) :
  Py.all_chars p s = true -> Py.all_chars p (Py.take n s) = true.
Proof.
  revert s; induction n as [|n IH]; intros [|c r]; simpl; auto.
  intros H; apply andb_true_iff in H as [Hc Hr].
  rewrite Hc; simpl; auto.
Qed.

Lemma all_chars_filter (p : ascii -> bool) (s : string) :
  Py.all_chars p (Py.filter p s) = true.
Proof.
  induction s as [|c r IH]; simpl; auto.
  destruct (p c) eqn:E; simpl; auto.
  rewrite E; auto.
Qed.

Lemma filter_all (p : ascii -> bool) (s : string) :
  Py.all_chars p s = true -> Py.filter p s = s.
Proof.
  induction s as [|c r IH]; simpl; auto.
  intros H; apply andb_true_iff in H as [Hc Hr].
  rewrite Hc, IH; auto.
Qed.

Lemma all_chars_In (p : ascii -> bool) (s : string) :
  Py.all_chars p s = true <->
  forall c, In c (list_ascii_of_string s) -> p c = true.
Proof.
  induction s as [|d r IH]; simpl.
  - split; [intros _ c [] | reflexivity].
  - rewrite andb_true_iff, IH. split.
    + intros [Hd Hr] c [<- | Hc]; auto.
    + intros H; split; auto.
Qed.

Lemma append_assoc (a b c : string) :
  ((a ++ b) ++ c = a ++ (b ++ c))%string.
Proof. induction a as [|x a IH]; simpl; [reflexivity | rewrite IH; reflexivity]. Qed.

Lemma falsy_true (s : string) : Py.falsy s = true <-> s = "".
Proof. destruct s; simpl; split; congruence. Qed.

Lemma last_chars_empty (n : nat) (s : string) :
  (0 < n)%nat -> Py.last_chars n s = "" -> s = "".
Proof.
  intros Hn H. unfold Py.last_chars in H.
  assert (L : String.length (Py.drop (String.length s - n) s) = 0%nat)
    by (rewrite H; reflexivity).
  rewrite drop_length in L.
  destruct s as [|c r]; auto.
  change (String.length (String c r)) with (S (String.length r)) in L. lia.
Qed.

(** A string with a character that is no white space does not strip to
    the empty string. *)
Lemma lstrip_nonspace (s : string) (d : ascii) :
  In d (list_ascii_of_string s) -> Py.isspace d = false ->
  exists c r, Py.lstrip s = String c r /\ Py.isspace c = false.
Proof.
  induction s as [|c r IH]; simpl; [intros [] |].
  intros [-> | Hd] Hs.
  - rewrite Hs. eauto.
  - destruct (Py.isspace c) eqn:E; eauto.
Qed.

Lemma rstrip_nonspace (c : ascii) (r : string) :
  Py.isspace c = false -> Py.rstrip (String c r) <> "".
Proof.
  intros Hc. simpl. destruct (Py.rstrip r); [rewrite Hc|]; discriminate.
Qed.

Lemma strip_nonspace (s : string) (d : ascii) :
  In d (list_ascii_of_string s) -> Py.isspace d = false -> Py.strip s <> "".
Proof.
  intros Hd Hs. destruct (lstrip_nonspace s d Hd Hs) as (c & r & E & Hc).
  unfold Py.strip. rewrite E. apply rstrip_nonspace; assumption.
Qed.

Lemma prefix_cons_lower (c : ascii) (sub s : string) :
  String.prefix (String c sub) (Py.lower s) = true ->
  exists d r, s = String d r /\ Py.lower_char d = c.
Proof.
  destruct s as [|d r]; simpl; [discriminate|].
  destruct (ascii_dec c (Py.lower_char d)) as [->|]; [eauto | discriminate].
Qed.

Lemma contains_cons_lower (c : ascii) (sub s : string) :
  Py.contains (String c sub) (Py.lower s) = true ->
  exists d, In d (list_ascii_of_string s) /\ Py.lower_char d = c.
Proof.
  induction s as [|d r IH].
  - simpl. discriminate.
  - intros H. change (Py.lower (String d r))
      with (String (Py.lower_char d) (Py.lower r)) in H.
    cbn [Py.contains] in H. apply orb_true_iff in H as [H | H].
    + change (String (Py.lower_char d) (Py.lower r))
        with (Py.lower (String d r)) in H.
      apply prefix_cons_lower in H as (d' & r' & E & L).
      inversion E; subst. exists d'; simpl; auto.
    + destruct (IH H) as (d' & Hin & L). exists d'; simpl; auto.
Qed.

(** Only letters lower to a letter. *)
Lemma lower_letter_nonspace (d : ascii) :
  Py.lower_char d = "e"%char \/ Py.lower_char d = "f"%char ->
  Py.isspace d = false.
Proof.
  destruct d as [[] [] [] [] [] [] [] []]; vm_compute;
    intros [H | H]; try reflexivity; discriminate.
Qed.

End PyFacts.

(** ** [sanitize_filename] *)

Section Sanitize.

Lemma illegal_char_In (c : ascii) :
  illegal_char c = true <-> In c illegal_chars.
Proof.
  unfold illegal_char. rewrite existsb_exists. split.
  - intros (x & Hx & E). apply Ascii.eqb_eq in E. subst; assumption.
  - intros H. exists c. split; [assumption | apply Ascii.eqb_refl].
Qed.

Lemma clean_name_all_chars (s : string) :
  clean_name s <-> Py.all_chars legal s = true.
Proof.
  unfold clean_name. rewrite PyFacts.all_chars_In, Forall_forall. split.
  - intros H c Hc. unfold legal. destruct (illegal_char c) eqn:E; auto.
    apply illegal_char_In in E. exfalso. exact (H c E Hc).
  - intros H c Hi Hc. specialize (H c Hc). unfold legal in H.
    apply illegal_char_In in Hi. rewrite Hi in H. discriminate.
Qed.

Lemma sanitize_filename_take (filename : string) :
  sanitize_filename filename = Py.take 150 (Py.filter legal filename).
Proof.
  unfold sanitize_filename, re_sub_illegal.
  destruct (Py.len (Py.filter legal filename) >? 150) eqn:E; auto.
  symmetry. apply PyFacts.take_all.
  unfold Py.len in E. rewrite Z.gtb_ltb in E. apply Z.ltb_ge in E. lia.
Qed.

Lemma sanitize_filename_clean (filename : string) :
  Py.all_chars legal (sanitize_filename filename) = true.
Proof.
  rewrite sanitize_filename_take.
  apply PyFacts.all_chars_take, PyFacts.all_chars_filter.
Qed.

Lemma sanitize_filename_fixed (name : string) :
  (String.length name <= 150)%nat -> Py.all_chars legal name = true ->
  sanitize_filename name = name.
Proof.
  intros L C. rewrite sanitize_filename_take, PyFacts.filter_all by assumption.
  apply PyFacts.take_all; assumption.
Qed.

(** C1: for every [filename], [sanitize_filename] returns the string
    obtained by deleting the nine illegal characters and then keeping the
    first 150 characters; the result has none of the nine characters and
    has at most 150 characters.  (The function is a total function of its
    argument alone: it is pure and deterministic.) *)
Theorem sanitize_filename_spec (filename : string) :
  sanitize_filename filename
  = Py.take 150 (Py.filter (fun c => negb (illegal_char c)) filename)
  /\ clean_name (sanitize_filename filename)
  /\ (String.length (sanitize_filename filename) <= 150)%nat.
Proof.
  split; [apply sanitize_filename_take | split].
  - apply clean_name_all_chars, sanitize_filename_clean.
  - rewrite sanitize_filename_take. apply PyFacts.take_length_le.
Qed.

(** C10: [sanitize_filename] is idempotent, and it is the identity on
    every string of at most 150 characters that has none of the nine
    illegal characters. *)
Theorem sanitize_filename_idempotent :
  (forall name : string,
      sanitize_filename (sanitize_filename name) = sanitize_filename name)
  /\ (forall name : string,
         (String.length name <= 150)%nat -> clean_name name ->
         sanitize_filename name = name).
Proof.
  split.
  - intros name. apply sanitize_filename_fixed.
    + rewrite sanitize_filename_take. apply PyFacts.take_length_le.
    + apply sanitize_filename_clean.
  - intros name L C. apply sanitize_filename_fixed; [assumption|].
    apply clean_name_all_chars; assumption.
Qed.

End Sanitize.

Lemma sanitize_filename_idempotent_witness :
  sanitize_filename (sanitize_filename "my:clip?.mp4")
  = sanitize_filename "my:clip?.mp4"
  /\ sanitize_filename "holiday.mp4" = "holiday.mp4".
Proof.
  split.
  - apply (proj1 sanitize_filename_idempotent).
  - apply (proj2 sanitize_filename_idempotent).
    + simpl; lia.
    + unfold clean_name, illegal_chars.
      repeat constructor; simpl; intuition discriminate.
Defined.

(** ** The error message of a failed run *)

Lemma scan_error_lines_find (error_lines : list string) :
  scan_error_lines error_lines
  = match find line_matches error_lines with
    | Some line => Py.strip line
    | None => ""
    end.
Proof.
  induction error_lines as [|line rest IH]; simpl; auto.
  destruct (line_matches line); auto.
Qed.

Lemma line_matches_strip (line : string) :
  line_matches line = true -> Py.strip line <> "".
Proof.
  unfold line_matches. intros H. apply orb_true_iff in H.
  assert (exists d, In d (list_ascii_of_string line)
                    /\ (Py.lower_char d = "e"%char \/ Py.lower_char d = "f"%char))
    as (d & Hin & Hd).
  { destruct H as [H | H];
      apply PyFacts.contains_cons_lower in H as (d & Hin & Hd); eauto. }
  eapply PyFacts.strip_nonspace; eauto using PyFacts.lower_letter_nonspace.
Qed.

Lemma extract_error_msg_match (stderr line : string) :
  spec_first_matching_line stderr = Some line ->
  extract_error_msg stderr = Py.strip line.
Proof.
  unfold spec_first_matching_line, extract_error_msg. intros H.
  rewrite scan_error_lines_find, H.
  apply find_some in H as [_ H]. apply line_matches_strip in H.
  destruct (Py.strip line); [congruence | reflexivity].
Qed.

Lemma extract_error_msg_no_match (stderr : string) :
  spec_first_matching_line stderr = None ->
  extract_error_msg stderr
  = if Py.falsy stderr then "Unknown error" else Py.last_chars 500 stderr.
Proof.
  unfold spec_first_matching_line, extract_error_msg. intros H.
  rewrite scan_error_lines_find, H. simpl.
  destruct (Py.falsy (Py.last_chars 500 stderr)) eqn:E.
  - apply PyFacts.falsy_true, PyFacts.last_chars_empty in E; [|lia].
    subst. reflexivity.
  - destruct stderr; [discriminate E | reflexivity].
Qed.

(** ** [convert_file] *)

Section ConvertFileFacts.

Context {W : Type} {os : OS W}.

Ltac unfold_convert_file :=
  unfold convert_file, with_TemporaryDirectory, convert_in_tmp, try_except,
    bind, ret, effect, enter, read, read_res, of_res;
  cbn [world log calls].

(** Case analysis on the result of the next call into the operating
    system. *)
Ltac os_case op :=
  let r := fresh "r" in
  let w := fresh "w" in
  let E := fresh "E" in
  destruct op as [r w] eqn:E; try destruct r; cbn [world log calls].

Ltac res_case op :=
  let E := fresh "E" in destruct op eqn:E; cbn [world log calls].

Ltac next_result :=
  match goal with
  | |- context [tempdir_enter ?w] => os_case (tempdir_enter w)
  | |- context [shutil_copy2 ?w ?a ?b] => os_case (shutil_copy2 w a b)
  | |- context [subprocess_run ?w ?c ?t] => os_case (subprocess_run w c t)
  | |- context [tempdir_exit ?w ?d] => os_case (tempdir_exit w d)
  | |- context [os_path_getsize ?w ?p] => res_case (os_path_getsize w p)
  | |- context [truediv ?a ?b] => res_case (truediv a b)
  | |- context [returncode ?r =? 0] => res_case (returncode r =? 0)
  end.

(** [convert_file] always returns a pair: no exception leaves it.  It
    writes nothing to the log, and it launches the tool at most once. *)
Lemma convert_file_returns (ffmpeg_path input_path output_path : string)
    (st : state W) :
  exists r w' cs,
    convert_file ffmpeg_path input_path output_path st
    = (Ok r, mkState w' (log st)
               (calls st
                ++ CallConvertFile ffmpeg_path input_path output_path :: cs))
    /\ (count_runs cs <= 1)%nat
    /\ forallb converter_call cs = true.
Proof.
  unfold_convert_file.
  repeat next_result;
    repeat rewrite <- app_assoc; cbn [app];
    do 3 eexists;
    (split; [reflexivity | split; [vm_compute; lia | reflexivity]]).
Qed.

(** The run in which the tool is launched and exits. *)
Lemma convert_file_exit_nonzero (ffmpeg_path input_path output_path : string)
    (st : state W) (tmp_dir : string) (w1 w2 w3 w4 : W)
    (result : CompletedProcess) :
  let tmp_input := os_path_join tmp_dir "input.mp4" in
  let command :=
    ffmpeg_command ffmpeg_path tmp_input (os_path_join tmp_dir "output.mpeg") in
  tempdir_enter (world st) = (Ok tmp_dir, w1) ->
  shutil_copy2 w1 input_path tmp_input = (Ok tt, w2) ->
  subprocess_run w2 command 600 = (Ok result, w3) ->
  returncode result <> 0 ->
  tempdir_exit w3 tmp_dir = (Ok tt, w4) ->
  convert_file ffmpeg_path input_path output_path st
  = (Ok (false, ErrorText (extract_error_msg (stderr result))),
     mkState w4 (log st)
       (calls st ++ [ CallConvertFile ffmpeg_path input_path output_path;
                      CallTempdirEnter;
                      CallCopy2 input_path tmp_input;
                      CallRun command 600;
                      CallTempdirExit tmp_dir ])).
Proof.
  intros tmp_input command H1 H2 H3 H4 H5. unfold_convert_file.
  rewrite H1; cbn [world log calls].
  fold tmp_input. rewrite H2; cbn [world log calls].
  fold command. rewrite H3; cbn [world log calls].
  apply Z.eqb_neq in H4. rewrite H4; cbn [world log calls].
  rewrite H5. repeat rewrite <- app_assoc. reflexivity.
Qed.

(** C3, as the code has it: when the tool exits with a nonzero code (the
    temporary directory being removed without error afterwards),
    [convert_file] returns a failure whose message is the first line of the
    diagnostic stream with "error" or "failed" in any letter case, stripped
    of leading and trailing white space (so for the line
    "Error: codec not found" it is that line); when no line matches it is
    the last 500 characters of the stream; when the stream is empty it is
    "Unknown error". *)
Theorem convert_file_error_message
    (ffmpeg_path input_path output_path : string)
    (st : state W) (tmp_dir : string) (w1 w2 w3 w4 : W)
    (result : CompletedProcess) :
  let tmp_input := os_path_join tmp_dir "input.mp4" in
  let command :=
    ffmpeg_command ffmpeg_path tmp_input (os_path_join tmp_dir "output.mpeg") in
  tempdir_enter (world st) = (Ok tmp_dir, w1) ->
  shutil_copy2 w1 input_path tmp_input = (Ok tt, w2) ->
  subprocess_run w2 command 600 = (Ok result, w3) ->
  returncode result <> 0 ->
  tempdir_exit w3 tmp_dir = (Ok tt, w4) ->
  exists msg : string,
    fst (convert_file ffmpeg_path input_path output_path st)
    = Ok (false, ErrorText msg)
    /\ (forall line, spec_first_matching_line (stderr result) = Some line ->
                     msg = Py.strip line)
    /\ (spec_first_matching_line (stderr result) = Some "Error: codec not found" ->
        msg = "Error: codec not found")
    /\ (spec_first_matching_line (stderr result) = None ->
        stderr result <> "" -> msg = Py.last_chars 500 (stderr result))
    /\ (stderr result = "" -> msg = "Unknown error").
Proof.
  intros tmp_input command H1 H2 H3 H4 H5.
  exists (extract_error_msg (stderr result)).
  split; [|split; [|split; [|split]]].
  - unfold tmp_input, command in *.
    erewrite convert_file_exit_nonzero by eassumption. reflexivity.
  - intros line H. apply extract_error_msg_match; assumption.
  - intros H. rewrite (extract_error_msg_match _ _ H). reflexivity.
  - intros H Hne. rewrite extract_error_msg_no_match by assumption.
    destruct (stderr result); [congruence | reflexivity].
  - intros ->. reflexivity.
Qed.

(** C5: [convert_file] never lets an exception out: it always returns a
    pair, which is the pair the guarded block returns, or else the failure
    whose message is the description of the exception the block raises.
    In particular an exception raised on entering the temporary directory, by the
    copy of the input, by the launch of the tool (a launch failure, or the
    timeout of the 600-second deadline), by the copy of the output, or by
    the removal of the temporary directory, gives the failure result whose
    message is the description of that exception.  The tool is launched at
    most once per call, with the deadline 600: a timeout is not retried. *)
Theorem convert_file_catches (ffmpeg_path input_path output_path : string)
    (st : state W) :
  (exists (r : bool * result_msg) (w' : W) (cs : list call),
      convert_file ffmpeg_path input_path output_path st
      = (Ok r, mkState w' (log st)
                 (calls st
                  ++ CallConvertFile ffmpeg_path input_path output_path :: cs))
      /\ (count_runs cs <= 1)%nat
      /\ (forall command timeout, In (CallRun command timeout) cs ->
                                  timeout = 600))
  /\ (forall r st1,
         with_TemporaryDirectory
           (convert_in_tmp ffmpeg_path input_path output_path)
           (mkState (world st) (log st)
              (calls st
               ++ [CallConvertFile ffmpeg_path input_path output_path]))
         = (r, st1) ->
         convert_file ffmpeg_path input_path output_path st
         = (match r with
            | Ok result => Ok result
            | Raise e => Ok (false, ErrorText (exn_str e))
            end, st1))
  /\ (forall e w1,
         tempdir_enter (world st) = (Raise e, w1) ->
         fst (convert_file ffmpeg_path input_path output_path st)
         = Ok (false, ErrorText (exn_str e)))
  /\ (forall tmp_dir w1,
         tempdir_enter (world st) = (Ok tmp_dir, w1) ->
         let tmp_input := os_path_join tmp_dir "input.mp4" in
         let tmp_output := os_path_join tmp_dir "output.mpeg" in
         let command := ffmpeg_command ffmpeg_path tmp_input tmp_output in
         (* the copy of the input fails *)
         (forall e w2 w3,
             shutil_copy2 w1 input_path tmp_input = (Raise e, w2) ->
             tempdir_exit w2 tmp_dir = (Ok tt, w3) ->
             fst (convert_file ffmpeg_path input_path output_path st)
             = Ok (false, ErrorText (exn_str e)))
         (* the launch fails, or the deadline passes *)
         /\ (forall e w2 w3 w4,
                shutil_copy2 w1 input_path tmp_input = (Ok tt, w2) ->
                subprocess_run w2 command 600 = (Raise e, w3) ->
                tempdir_exit w3 tmp_dir = (Ok tt, w4) ->
                convert_file ffmpeg_path input_path output_path st
                = (Ok (false, ErrorText (exn_str e)),
                   mkState w4 (log st)
                     (calls st
                      ++ [ CallConvertFile ffmpeg_path input_path output_path;
                           CallTempdirEnter;
                           CallCopy2 input_path tmp_input;
                           CallRun command 600;
                           CallTempdirExit tmp_dir ])))
         (* the copy of the output fails *)
         /\ (forall e result w2 w3 w4 w5,
                shutil_copy2 w1 input_path tmp_input = (Ok tt, w2) ->
                subprocess_run w2 command 600 = (Ok result, w3) ->
                returncode result = 0 ->
                shutil_copy2 w3 tmp_output output_path = (Raise e, w4) ->
                tempdir_exit w4 tmp_dir = (Ok tt, w5) ->
                fst (convert_file ffmpeg_path input_path output_path st)
                = Ok (false, ErrorText (exn_str e)))
         (* the removal of the temporary directory fails *)
         /\ (forall e r st1 w2,
                convert_in_tmp ffmpeg_path input_path output_path tmp_dir
                  (mkState w1 (log st)
                     (calls st
                      ++ [ CallConvertFile ffmpeg_path input_path output_path;
                           CallTempdirEnter ]))
                = (r, st1) ->
                tempdir_exit (world st1) tmp_dir = (Raise e, w2) ->
                fst (convert_file ffmpeg_path input_path output_path st)
                = Ok (false, ErrorText (exn_str e)))).
Proof.
  split; [|split; [|split; [|intros tmp_dir w1 H1 tmp_input tmp_output command;
                             split; [|split; [|split]]]]].
  - unfold_convert_file.
    repeat next_result;
      repeat rewrite <- app_assoc; cbn [app];
      do 3 eexists;
      (split; [reflexivity | split; [vm_compute; lia |]]);
      intros c t Hin; cbn [In] in Hin;
      repeat match goal with
             | H : _ \/ _ |- _ => destruct H
             | H : False |- _ => destruct H
             | H : _ = CallRun _ _ |- _ => inversion H; clear H
             end; reflexivity.
  - intros r st1 H. unfold convert_file, try_except, bind, enter;
      cbn [world log calls]. rewrite H. destruct r; reflexivity.
  - intros e w1 H1. unfold_convert_file. rewrite H1. reflexivity.
  - intros e w2 w3 H2 H3. unfold_convert_file.
    rewrite H1; cbn [world log calls]. fold tmp_input.
    rewrite H2; cbn [world log calls]. rewrite H3. reflexivity.
  - intros e w2 w3 w4 H2 H3 H4. unfold_convert_file.
    rewrite H1; cbn [world log calls]. fold tmp_input.
    rewrite H2; cbn [world log calls]. fold tmp_output. fold command.
    rewrite H3; cbn [world log calls]. rewrite H4.
    repeat rewrite <- app_assoc. reflexivity.
  - intros e result w2 w3 w4 w5 H2 H3 H4 H5 H6. unfold_convert_file.
    rewrite H1; cbn [world log calls]. fold tmp_input.
    rewrite H2; cbn [world log calls]. fold tmp_output. fold command.
    rewrite H3; cbn [world log calls].
    apply Z.eqb_eq in H4. rewrite H4; cbn [world log calls].
    rewrite H5; cbn [world log calls]. rewrite H6. reflexivity.
  - intros e r st1 w2 H2 H3.
    unfold convert_file, with_TemporaryDirectory, try_except, bind, effect,
      enter; cbn [world log calls].
    rewrite H1; cbn [world log calls].
    repeat rewrite <- app_assoc; cbn [app].
    rewrite H2. rewrite H3. reflexivity.
Qed.

End ConvertFileFacts.

(** On the diagnostic stream [indented_diagnostics] the first matching line
    is not the message: the message is that line without its blanks. *)
Lemma error_message_is_stripped :
  let st := Sim.boot (one_clip [Sim.Exit 1 indented_diagnostics None] false) in
  spec_first_matching_line indented_diagnostics
  = Some "  Error: codec not found"
  /\ fst (convert_file "ffmpeg" "/in/clip.mp4" "/out/clip.mpeg" st)
     = Ok (false, ErrorText "Error: codec not found")
  /\ "Error: codec not found" <> "  Error: codec not found".
Proof.
  split; [reflexivity | split; [reflexivity | discriminate]].
Qed.

(** When the removal of the temporary directory fails, the message is the
    description of that failure, whatever the tool wrote. *)
Example error_message_of_failed_removal :
  let st := Sim.boot (one_clip [Sim.Exit 1 plain_diagnostics None] true) in
  fst (convert_file "ffmpeg" "/in/clip.mp4" "/out/clip.mpeg" st)
  = Ok (false,
        ErrorText "[WinError 32] The process cannot access the file: '/tmp/tmp0'").
Proof. reflexivity. Qed.

Lemma convert_file_error_message_witness :
  let st := Sim.boot (one_clip [Sim.Exit 1 plain_diagnostics None] false) in
  exists msg : string,
    fst (convert_file "ffmpeg" "/in/clip.mp4" "/out/clip.mpeg" st)
    = Ok (false, ErrorText msg)
    /\ msg = "Error: codec not found".
Proof.
  intros st.
  edestruct (convert_file_error_message (os := Sim.sim_os)
               "ffmpeg" "/in/clip.mp4" "/out/clip.mpeg" st)
    as (msg & E & _ & Hline & _).
  - lazy. reflexivity.
  - lazy. reflexivity.
  - lazy. reflexivity.
  - lazy. discriminate.
  - lazy. reflexivity.
  - exists msg. split; [exact E | apply Hline; reflexivity].
Defined.

Lemma convert_file_catches_witness :
  let st := Sim.boot (one_clip [Sim.Timeout] false) in
  fst (convert_file "ffmpeg" "/in/clip.mp4" "/out/clip.mpeg" st)
  = Ok (false, ErrorText "Command timed out after 600 seconds")
  /\ count_runs (calls (snd (convert_file "ffmpeg" "/in/clip.mp4"
                               "/out/clip.mpeg" st))) = 1%nat.
Proof.
  intros st.
  destruct (convert_file_catches (os := Sim.sim_os)
              "ffmpeg" "/in/clip.mp4" "/out/clip.mpeg" st)
    as (_ & _ & _ & Hsteps).
  edestruct Hsteps as (_ & Hrun & _); [lazy; reflexivity |].
  erewrite Hrun; cycle 1.
  - lazy. reflexivity.
  - lazy. reflexivity.
  - lazy. reflexivity.
  - split; reflexivity.
Defined.

(** ** The conversion loop *)

Lemma Qgt_bool_lt (a b : Q) : Qgt_bool a b = true <-> (b < a)%Q.
Proof.
  unfold Qgt_bool. rewrite negb_true_iff. split.
  - intros H. apply Qnot_le_lt. intros L.
    apply Qle_bool_iff in L. congruence.
  - intros H. destruct (Qle_bool a b) eqn:E; auto.
    apply Qle_bool_iff in E. exfalso. exact (Qlt_not_le _ _ H E).
Qed.

Lemma Qgt_bool_le (a b : Q) : Qgt_bool a b = false <-> (a <= b)%Q.
Proof.
  unfold Qgt_bool. rewrite negb_false_iff. apply Qle_bool_iff.
Qed.

Lemma app_cons_not_nil {A} (l t : list A) (x : A) : l <> (l ++ x :: t)%list.
Proof.
  intros H. apply (f_equal (@List.length A)) in H.
  rewrite length_app in H. simpl in H. lia.
Qed.

Section FolderFacts.

Context {W : Type} {os : OS W}.

(** Replaces a call of [convert_file] by what it returns. *)
Ltac run_convert_file :=
  match goal with
  | |- context [convert_file ?f ?i ?o ?s] =>
      let r := fresh "r" in
      let w := fresh "w" in
      let cs := fresh "cs" in
      let E := fresh "E" in
      destruct (convert_file_returns f i o s) as (r & w & cs & E & ? & ?);
      rewrite E; cbn [world log calls];
      destruct r as [[] ?]; cbn [world log calls]
  end.

Ltac split5 := split; [|split; [|split; [|split]]].

Ltac unfold_convert_one :=
  unfold convert_one, already_converted, bind, ret, read, read_res, logging;
  cbn [world log calls].

Lemma convert_one_skips (ffmpeg_path output_folder : string) (total_files i : Z)
    (input_path : string) (success_count : Z) (st : state W) :
  fresh_output (world st) input_path
    (derived_output_path output_folder input_path) ->
  convert_one ffmpeg_path output_folder total_files i input_path
    success_count st
  = (Ok (success_count + 1),
     mkState (world st)
       (log st ++ [ (INFO, MsgConverting i total_files
                             (os_path_basename input_path));
                    (INFO, MsgSkipped (os_path_basename input_path)) ])
       (calls st)).
Proof.
  intros (Hex & mo & mi & Ho & Hi & Hlt). unfold_convert_one.
  rewrite Hex; cbn [world log calls]. rewrite Ho; cbn [world log calls].
  rewrite Hi; cbn [world log calls]. apply Qgt_bool_lt in Hlt. rewrite Hlt.
  cbn [world log calls]. rewrite <- app_assoc. reflexivity.
Qed.

Lemma convert_one_converts (ffmpeg_path output_folder : string)
    (total_files i : Z) (input_path : string) (success_count : Z)
    (st : state W) :
  stale_or_missing (world st) input_path
    (derived_output_path output_folder input_path) ->
  exists r st' cs,
    convert_one ffmpeg_path output_folder total_files i input_path
      success_count st = (r, st')
    /\ calls st'
       = calls st
         ++ CallConvertFile ffmpeg_path input_path
              (derived_output_path output_folder input_path) :: cs.
Proof.
  intros H. unfold_convert_one.
  destruct H as [Hex | (mo & mi & Ho & Hi & Hle)].
  - rewrite Hex; cbn [world log calls].
    run_convert_file; do 3 eexists; split; reflexivity.
  - destruct (os_path_exists (world st) _); cbn [world log calls].
    + rewrite Ho; cbn [world log calls]. rewrite Hi; cbn [world log calls].
      apply Qgt_bool_le in Hle. rewrite Hle. cbn [world log calls].
      run_convert_file; do 3 eexists; split; reflexivity.
    + run_convert_file; do 3 eexists; split; reflexivity.
Qed.

(** The loop runs [convert_one] on each discovered file, in order, with the
    index and the count carried along; an exception ends it. *)
Lemma convert_loop_cons (ffmpeg_path output_folder : string) (total_files i : Z)
    (input_path : string) (rest : list string) (success_count : Z)
    (st : state W) :
  convert_loop ffmpeg_path output_folder total_files i (input_path :: rest)
    success_count st
  = match convert_one ffmpeg_path output_folder total_files i input_path
            success_count st with
    | (Ok success_count', st1) =>
        convert_loop ffmpeg_path output_folder total_files (i + 1) rest
          success_count' st1
    | (Raise e, st1) => (Raise e, st1)
    end.
Proof. reflexivity. Qed.

(** C2: a file is counted a success without a call of [convert_file]
    exactly when its derived output exists and the modification time of
    the output is strictly greater than that of the input; the log, the
    world and the calls are then as stated.  When the output is missing, or
    its modification time is not strictly greater, [convert_file] is called
    for that file. *)
Theorem skip_rule (ffmpeg_path output_folder : string) (total_files i : Z)
    (input_path : string) (success_count : Z) (st : state W) :
  let output_path := derived_output_path output_folder input_path in
  let run := convert_one ffmpeg_path output_folder total_files i input_path
               success_count st in
  (fresh_output (world st) input_path output_path
   <-> exists st', run = (Ok (success_count + 1), st') /\ calls st' = calls st)
  /\ (fresh_output (world st) input_path output_path ->
      run = (Ok (success_count + 1),
             mkState (world st)
               (log st ++ [ (INFO, MsgConverting i total_files
                                     (os_path_basename input_path));
                            (INFO, MsgSkipped (os_path_basename input_path)) ])
               (calls st)))
  /\ (stale_or_missing (world st) input_path output_path ->
      exists r st' cs,
        run = (r, st')
        /\ calls st'
           = calls st ++ CallConvertFile ffmpeg_path input_path output_path :: cs).
Proof.
  intros output_path run.
  assert (Hstale : stale_or_missing (world st) input_path output_path ->
                   forall st', run = (Ok (success_count + 1), st') ->
                               calls st' <> calls st).
  { intros H st' E Hc.
    destruct (convert_one_converts ffmpeg_path output_folder total_files i
                input_path success_count st H) as (r & st1 & cs & E1 & C1).
    fold run in E1. rewrite E in E1. inversion E1; subst.
    rewrite Hc in C1. exact (app_cons_not_nil _ _ _ C1). }
  split; [split | split].
  - intros H. eexists. split.
    + apply convert_one_skips; assumption.
    + reflexivity.
  - intros (st' & E & Hc).
    destruct (os_path_exists (world st) output_path) eqn:Hex.
    2:{ exfalso. apply (Hstale (or_introl Hex) st' E Hc). }
    destruct (os_path_getmtime (world st) output_path) as [mo|e] eqn:Ho.
    2:{ exfalso. revert E. unfold run. unfold_convert_one.
        fold output_path. rewrite Hex; cbn [world log calls].
        rewrite Ho. discriminate. }
    destruct (os_path_getmtime (world st) input_path) as [mi|e] eqn:Hi.
    2:{ exfalso. revert E. unfold run. unfold_convert_one.
        fold output_path. rewrite Hex; cbn [world log calls].
        rewrite Ho; cbn [world log calls]. rewrite Hi. discriminate. }
    destruct (Qgt_bool mo mi) eqn:Hq.
    + split; [exact Hex|]. exists mo, mi.
      split; [exact Ho | split; [exact Hi | apply Qgt_bool_lt; exact Hq]].
    + exfalso. refine (Hstale _ st' E Hc). right. exists mo, mi.
      split; [exact Ho | split; [exact Hi | apply Qgt_bool_le; exact Hq]].
  - intros H. apply convert_one_skips; assumption.
  - intros H. apply convert_one_converts; assumption.
Qed.

Lemma count_app {A} (p : A -> bool) (l1 l2 : list A) :
  count p (l1 ++ l2) = count p l1 + count p l2.
Proof. unfold count. rewrite filter_app, length_app. lia. Qed.

Lemma count_zero {A} (p q : A -> bool) (l : list A) :
  forallb q l = true -> (forall x, q x = true -> p x = false) ->
  count p l = 0.
Proof.
  intros H Hpq. unfold count. induction l as [|x l IH]; simpl in *; auto.
  apply andb_true_iff in H as [Hx Hl]. rewrite (Hpq x Hx). auto.
Qed.

Lemma In_forallb {A} (q : A -> bool) (l : list A) (x : A) :
  forallb q l = true -> In x l -> q x = true.
Proof. intros H. rewrite forallb_forall in H. apply H. Qed.

(** What one iteration adds to the log and to the calls. *)
Lemma convert_one_trace (ffmpeg_path output_folder : string)
    (total_files i : Z) (input_path : string) (success_count : Z)
    (st : state W) (r : Res Z) (st' : state W) :
  convert_one ffmpeg_path output_folder total_files i input_path
    success_count st = (r, st') ->
  exists d cs,
    log st' = log st ++ d
    /\ calls st' = calls st ++ cs
    /\ forallb loop_record d = true
    /\ forallb converter_call cs = true
    /\ (forall sc', r = Ok sc' ->
          sc' = success_count + count is_success_mark d
          /\ count is_success_mark d + count is_fail_mark d = 1).
Proof.
  unfold_convert_one.
  destruct (os_path_exists (world st) _); cbn [world log calls].
  - destruct (os_path_getmtime (world st) _); cbn [world log calls].
    + destruct (os_path_getmtime (world st) input_path);
        cbn [world log calls].
      * destruct (Qgt_bool _ _); cbn [world log calls].
        -- intros Hr; inversion Hr; subst; cbn [world log calls].
           eexists; exists [].
           split5; [rewrite <- app_assoc; reflexivity
                   | symmetry; apply app_nil_r | reflexivity | reflexivity |].
           intros sc' Esc; inversion Esc; subst. vm_compute; lia.
        -- run_convert_file; intros Hr; inversion Hr; subst;
             cbn [world log calls]; do 2 eexists;
             repeat rewrite <- app_assoc;
             (split5; [reflexivity | reflexivity | reflexivity
                      | cbn [forallb converter_call]; assumption |]);
             intros sc' Esc; inversion Esc; subst; unfold count; simpl; lia.
      * intros Hr; inversion Hr; subst; cbn [world log calls].
        eexists; exists [].
        split5; [reflexivity | symmetry; apply app_nil_r
                | reflexivity | reflexivity |].
        intros sc' Esc; discriminate.
    + intros Hr; inversion Hr; subst; cbn [world log calls].
      eexists; exists [].
      split5; [reflexivity | symmetry; apply app_nil_r
              | reflexivity | reflexivity |].
      intros sc' Esc; discriminate.
  - run_convert_file; intros Hr; inversion Hr; subst;
      cbn [world log calls]; do 2 eexists;
      repeat rewrite <- app_assoc;
      (split5; [reflexivity | reflexivity | reflexivity
               | cbn [forallb converter_call]; assumption |]);
      intros sc' Esc; inversion Esc; subst; unfold count; simpl; lia.
Qed.

(** What the whole loop adds to the log and to the calls, and what it
    returns when it comes to its end. *)
Lemma convert_loop_trace (ffmpeg_path output_folder : string) (total_files : Z)
    (mp4_files : list string) :
  forall (i success_count : Z) (st : state W) (r : Res Z) (st' : state W),
    convert_loop ffmpeg_path output_folder total_files i mp4_files
      success_count st = (r, st') ->
    exists d cs,
      log st' = log st ++ d
      /\ calls st' = calls st ++ cs
      /\ forallb loop_record d = true
      /\ forallb converter_call cs = true
      /\ (forall sc', r = Ok sc' ->
            sc' = success_count + count is_success_mark d
            /\ count is_success_mark d + count is_fail_mark d
               = Z.of_nat (List.length mp4_files)).
Proof.
  induction mp4_files as [|input_path rest IH]; intros i sc st r st' H.
  - cbn [convert_loop] in H. unfold ret in H. inversion H; subst.
    exists [], []. rewrite !app_nil_r.
    split5; try reflexivity.
    intros sc' E; inversion E; subst. unfold count; simpl. split; lia.
  - cbn [convert_loop] in H. unfold bind at 1 in H.
    destruct (convert_one ffmpeg_path output_folder total_files i input_path
                sc st) as [r1 st1] eqn:E1.
    apply convert_one_trace in E1
      as (d1 & cs1 & L1 & C1 & D1 & K1 & S1).
    destruct r1 as [sc1 | e].
    + apply IH in H as (d2 & cs2 & L2 & C2 & D2 & K2 & S2).
      exists (d1 ++ d2), (cs1 ++ cs2).
      split5.
      * rewrite L2, L1, app_assoc. reflexivity.
      * rewrite C2, C1, app_assoc. reflexivity.
      * rewrite forallb_app, D1, D2. reflexivity.
      * rewrite forallb_app, K1, K2. reflexivity.
      * intros sc' E. destruct (S1 sc1 eq_refl) as [A1 B1].
        destruct (S2 sc' E) as [A2 B2].
        rewrite !count_app. cbn [List.length]. lia.
    + inversion H; subst. exists d1, cs1.
      split5; try assumption. intros sc' E; discriminate.
Qed.

(** The two sums read the world and change nothing. *)
Lemma sum_input_sizes_state (mp4_files : list string) :
  forall (acc : Z) (st : state W) (r : Res Z) (st' : state W),
    sum_input_sizes mp4_files acc st = (r, st') -> st' = st.
Proof.
  induction mp4_files as [|p rest IH]; intros acc st r st' H;
    cbn [sum_input_sizes] in H.
  - inversion H; reflexivity.
  - unfold bind, read, read_res in H.
    destruct (os_path_exists (world st) p).
    + destruct (os_path_getsize (world st) p).
      * eapply IH; eassumption.
      * inversion H; reflexivity.
    + eapply IH; eassumption.
Qed.

Lemma sum_output_sizes_state (output_folder : string) (listing : list string) :
  forall (acc : Z) (st : state W) (r : Res Z) (st' : state W),
    sum_output_sizes output_folder listing acc st = (r, st') -> st' = st.
Proof.
  induction listing as [|f rest IH]; intros acc st r st' H;
    cbn [sum_output_sizes] in H.
  - inversion H; reflexivity.
  - destruct (Py.endswith f ".mpeg").
    + unfold bind, read_res in H.
      destruct (os_path_getsize (world st) _).
      * eapply IH; eassumption.
      * inversion H; reflexivity.
    + eapply IH; eassumption.
Qed.

(** The space report changes neither the world nor the calls, and logs
    nothing or its three records. *)
Lemma report_sizes_trace (output_folder : string) (mp4_files : list string)
    (success_count : Z) (st : state W) (r : Res unit) (st' : state W) :
  report_sizes output_folder mp4_files success_count st = (r, st') ->
  world st' = world st /\ calls st' = calls st
  /\ exists d, log st' = log st ++ d /\ forallb size_record d = true
               /\ (success_count <= 0 -> d = []).
Proof.
  unfold report_sizes. intros H.
  destruct (success_count >? 0) eqn:G.
  2:{ inversion H; subst. repeat split. exists []. rewrite app_nil_r.
      repeat split. }
  assert (Hpos : ~ success_count <= 0)
    by (rewrite Z.gtb_ltb in G; apply Z.ltb_lt in G; lia).
  unfold bind at 1 in H.
  destruct (sum_input_sizes mp4_files 0 st) as [r1 st1] eqn:E1.
  apply sum_input_sizes_state in E1; subst st1.
  destruct r1 as [tin|e].
  2:{ inversion H; subst. repeat split. exists []. rewrite app_nil_r.
      repeat split. }
  unfold bind at 1, read_res at 1 in H.
  destruct (os_listdir (world st) output_folder) as [listing|e].
  2:{ inversion H; subst. repeat split. exists []. rewrite app_nil_r.
      repeat split. }
  unfold bind at 1 in H.
  destruct (sum_output_sizes output_folder listing 0 st) as [r2 st2] eqn:E2.
  apply sum_output_sizes_state in E2; subst st2.
  destruct r2 as [tout|e].
  2:{ inversion H; subst. repeat split. exists []. rewrite app_nil_r.
      repeat split. }
  unfold bind, of_res, ret, logging in H; cbn [world log calls] in H.
  destruct (Qgt_bool (to_mb tin) 0).
  - destruct (truediv _ _); inversion H; subst; cbn [world log calls].
    + repeat split. eexists. repeat rewrite <- app_assoc.
      split; [reflexivity | split; [reflexivity | intros; contradiction]].
    + repeat split. exists []. rewrite app_nil_r.
      repeat split.
  - inversion H; subst; cbn [world log calls].
    repeat split. eexists. repeat rewrite <- app_assoc.
    split; [reflexivity | split; [reflexivity | intros; contradiction]].
Qed.

(** The sign of a size in MB is the sign of the size in bytes. *)
Lemma to_mb_gt_0 (n : Z) : Qgt_bool (to_mb n) 0 = (0 <? n).
Proof.
  unfold Qgt_bool, Qle_bool, to_mb, MiB, Qdiv, Qmult, Qinv, inject_Z.
  cbn [Qnum Qden]. simpl.
  destruct (0 <? n) eqn:E.
  - apply negb_true_iff, Z.leb_gt. apply Z.ltb_lt in E. lia.
  - apply negb_false_iff, Z.leb_le. apply Z.ltb_ge in E. lia.
Qed.

Lemma to_mb_eq_0 (n : Z) : Qeq_bool (to_mb n) 0 = (n =? 0).
Proof.
  unfold Qeq_bool, to_mb, MiB, Qdiv, Qmult, Qinv, inject_Z.
  cbn [Qnum Qden]. simpl.
  destruct (n =? 0) eqn:E.
  - apply Z.eqb_eq in E. subst. reflexivity.
  - apply Z.eqb_neq in E. apply Z.eqb_neq. lia.
Qed.

Lemma sum_input_sizes_spec (mp4_files : list string) :
  forall (acc : Z) (st : state W),
    sum_input_sizes mp4_files acc st
    = (match total_size (world st) (existing_inputs (world st) mp4_files) with
       | Ok n => Ok (acc + n)
       | Raise e => Raise e
       end, st).
Proof.
  induction mp4_files as [|p rest IH]; intros acc st;
    cbn [sum_input_sizes existing_inputs filter total_size].
  - unfold ret. rewrite Z.add_0_r. reflexivity.
  - unfold bind, read, read_res.
    destruct (os_path_exists (world st) p); cbn [total_size].
    + destruct (os_path_getsize (world st) p) as [n|e]; [|reflexivity].
      rewrite IH. unfold existing_inputs.
      destruct (total_size _ _); [|reflexivity].
      rewrite Z.add_assoc. reflexivity.
    + apply IH.
Qed.

Lemma sum_output_sizes_spec (output_folder : string) (listing : list string) :
  forall (acc : Z) (st : state W),
    sum_output_sizes output_folder listing acc st
    = (match total_size (world st) (mpeg_outputs output_folder listing) with
       | Ok n => Ok (acc + n)
       | Raise e => Raise e
       end, st).
Proof.
  induction listing as [|f rest IH]; intros acc st;
    cbn [sum_output_sizes mpeg_outputs filter map total_size].
  - unfold ret. rewrite Z.add_0_r. reflexivity.
  - destruct (Py.endswith f ".mpeg"); cbn [map total_size].
    + unfold bind, read_res.
      destruct (os_path_getsize (world st) _) as [n|e]; [|reflexivity].
      rewrite IH. unfold mpeg_outputs.
      destruct (total_size _ _); [|reflexivity].
      rewrite Z.add_assoc. reflexivity.
    + apply IH.
Qed.

Lemma failed_lines_spec (w : W) (output_folder : string)
    (mp4_files : list string) :
  forall i : Z,
    failed_lines w output_folder i mp4_files
    = Py.concat
        (map failed_line
           (filter (fun entry =>
                      negb (os_path_exists w
                              (derived_output_path output_folder (snd entry))))
                   (enumerate i mp4_files))).
Proof.
  induction mp4_files as [|p rest IH]; intros i;
    cbn [failed_lines enumerate filter snd]; [reflexivity|].
  rewrite IH.
  destruct (os_path_exists w _); cbn [negb map]; [reflexivity|].
  cbn [Py.concat fold_right].
  change (failed_line (i, p))
    with (Py.str_of_int i ++ ". " ++ os_path_basename p ++ String "010" "")%string.
  rewrite !PyFacts.append_assoc. reflexivity.
Qed.

Lemma failed_lines_from_1 (w : W) (output_folder : string)
    (mp4_files : list string) :
  failed_lines w output_folder 1 mp4_files
  = spec_failed_lines w output_folder mp4_files.
Proof. apply failed_lines_spec. Qed.

(** ** The report *)

Lemma report_sizes_skipped (output_folder : string) (mp4_files : list string)
    (success_count : Z) (st : state W) :
  success_count <= 0 ->
  report_sizes output_folder mp4_files success_count st = (Ok tt, st).
Proof.
  intros H. unfold report_sizes.
  destruct (success_count >? 0) eqn:G; [|reflexivity].
  rewrite Z.gtb_ltb in G. apply Z.ltb_lt in G. lia.
Qed.

Lemma report_sizes_emitted (output_folder : string) (mp4_files : list string)
    (success_count : Z) (st : state W)
    (total_input_size total_output_size : Z) (listing : list string) :
  0 < success_count ->
  total_size (world st) (existing_inputs (world st) mp4_files)
  = Ok total_input_size ->
  os_listdir (world st) output_folder = Ok listing ->
  total_size (world st) (mpeg_outputs output_folder listing)
  = Ok total_output_size ->
  report_sizes output_folder mp4_files success_count st
  = (Ok tt,
     mkState (world st)
       (log st ++ size_records total_input_size total_output_size)
       (calls st)).
Proof.
  intros Hpos Hin Hls Hout. unfold report_sizes.
  replace (success_count >? 0) with true
    by (symmetry; rewrite Z.gtb_ltb; apply Z.ltb_lt; assumption).
  unfold bind at 1. rewrite sum_input_sizes_spec, Hin.
  unfold bind at 1, read_res at 1. rewrite Hls.
  unfold bind at 1. rewrite sum_output_sizes_spec, Hout.
  rewrite !Z.add_0_l.
  unfold size_records, spec_savings_percent.
  rewrite to_mb_gt_0. unfold truediv. rewrite to_mb_eq_0.
  destruct (0 <? total_input_size) eqn:G.
  - apply Z.ltb_lt in G.
    replace (total_input_size =? 0) with false
      by (symmetry; apply Z.eqb_neq; lia).
    replace (total_input_size <=? 0) with false
      by (symmetry; apply Z.leb_gt; lia).
    unfold bind, of_res, ret, logging; cbn [world log calls].
    repeat rewrite <- app_assoc. reflexivity.
  - apply Z.ltb_ge in G.
    replace (total_input_size <=? 0) with true
      by (symmetry; apply Z.leb_le; lia).
    unfold bind, of_res, ret, logging; cbn [world log calls].
    repeat rewrite <- app_assoc. reflexivity.
Qed.

(** C9, as the code has it: after the loop the report is logged with its
    counters and its time; when at least one file was counted a success
    (and the sizes can be read), the report goes on with the total input
    size, the sum of the sizes of the inputs that still exist, the total
    output size, the sum of the sizes of every entry of the output folder
    whose name ends with ".mpeg", and the savings with their percentage,
    which is zero when the total input size is zero: no division by zero
    takes place.  When no file was counted a success the three size records
    are left out.  The list of failed files follows in both cases. *)
Theorem space_report (output_folder : string) (mp4_files : list string)
    (total_files : Z) (start_time : Q) (success_count : Z) (st : state W)
    (now : Q) (w1 : W) :
  time_time (world st) = (now, w1) ->
  let '(mins, secs) := mins_secs (now - start_time) in
  let head := report_head total_files success_count mins secs in
  (0 < success_count ->
   forall (total_input_size total_output_size : Z) (listing : list string),
     total_size w1 (existing_inputs w1 mp4_files) = Ok total_input_size ->
     os_listdir w1 output_folder = Ok listing ->
     total_size w1 (mpeg_outputs output_folder listing) = Ok total_output_size ->
     report_and_list output_folder mp4_files total_files start_time
       success_count st
     = save_failed_list output_folder mp4_files total_files success_count
         (mkState w1
            (log st ++ head
             ++ size_records total_input_size total_output_size
             ++ report_close output_folder)
            (calls st))
     /\ (total_input_size <= 0 ->
         spec_savings_percent total_input_size total_output_size = 0%Q))
  /\ (success_count <= 0 ->
      report_and_list output_folder mp4_files total_files start_time
        success_count st
      = save_failed_list output_folder mp4_files total_files success_count
          (mkState w1 (log st ++ head ++ report_close output_folder)
             (calls st))).
Proof.
  intros Ht. destruct (mins_secs (now - start_time)) as [mins secs] eqn:Em.
  cbv zeta. split.
  - intros Hpos tin tout listing Hin Hls Hout. split.
    + unfold report_and_list, clock. unfold bind at 1. rewrite Ht, Em.
      unfold bind at 1 2 3 4 5 6, logging; cbn [world log calls].
      unfold bind at 1.
      erewrite report_sizes_emitted; cbn [world log calls]; try eassumption.
      unfold bind, logging; cbn [world log calls].
      unfold report_head, report_close.
      repeat rewrite <- app_assoc. reflexivity.
    + intros Hz. unfold spec_savings_percent.
      replace (tin <=? 0) with true by (symmetry; apply Z.leb_le; lia).
      reflexivity.
  - intros Hz. unfold report_and_list, clock. unfold bind at 1. rewrite Ht, Em.
    unfold bind at 1 2 3 4 5 6, logging; cbn [world log calls].
    unfold bind at 1.
    rewrite report_sizes_skipped by assumption.
    unfold bind, logging; cbn [world log calls].
    unfold report_head, report_close.
    repeat rewrite <- app_assoc. reflexivity.
Qed.

(** ** The list of failed files *)

Lemma save_failed_list_none (output_folder : string) (mp4_files : list string)
    (total_files success_count : Z) (st : state W) :
  total_files - success_count <= 0 ->
  save_failed_list output_folder mp4_files total_files success_count st
  = (Ok tt, st).
Proof.
  intros H. unfold save_failed_list.
  replace (success_count <? total_files) with false
    by (symmetry; apply Z.ltb_ge; lia).
  reflexivity.
Qed.

Lemma save_failed_list_written (output_folder : string)
    (mp4_files : list string) (total_files success_count : Z) (st : state W)
    (w1 w2 : W) :
  let path := os_path_join output_folder "failed_files.txt" in
  let content :=
    (failed_heading ++ spec_failed_lines w1 output_folder mp4_files)%string in
  0 < total_files - success_count ->
  open_w (world st) path = (Ok tt, w1) ->
  write_close w1 path content = (Ok tt, w2) ->
  save_failed_list output_folder mp4_files total_files success_count st
  = (Ok tt,
     mkState w2 (log st)
       (calls st ++ [CallOpenW path; CallWriteClose path content])).
Proof.
  intros path content H Ho Hw. unfold save_failed_list.
  replace (success_count <? total_files) with true
    by (symmetry; apply Z.ltb_lt; lia).
  fold path. unfold bind, effect, read; cbn [world log calls].
  rewrite Ho; cbn [world log calls].
  rewrite failed_lines_from_1. fold content. rewrite Hw. rewrite <- app_assoc. reflexivity.
Qed.

(** Every way [save_failed_list] can go. *)
Lemma save_failed_list_trace (output_folder : string) (mp4_files : list string)
    (total_files success_count : Z) (st : state W) (r : Res unit)
    (st' : state W) :
  let path := os_path_join output_folder "failed_files.txt" in
  save_failed_list output_folder mp4_files total_files success_count st
  = (r, st') ->
  log st' = log st
  /\ exists cs,
      calls st' = calls st ++ cs
      /\ (forall c, In c cs -> 0 < total_files - success_count)
      /\ (forall c, In c cs ->
            manifest_write (world st') output_folder mp4_files c)
      /\ (r = Ok tt -> 0 < total_files - success_count ->
          exists content, In (CallWriteClose path content) cs).
Proof.
  intros path H. unfold save_failed_list in H. fold path in H.
  destruct (success_count <? total_files) eqn:G.
  - apply Z.ltb_lt in G.
    unfold bind, effect, read in H; cbn [world log calls] in H.
    destruct (open_w (world st) path) as [[[]|e] w1] eqn:Ho;
      cbn [world log calls] in H.
    + rewrite failed_lines_from_1 in H.
      destruct (write_close w1 path _) as [rw w2] eqn:Hw.
      inversion H; subst; cbn [world log calls].
      split; [reflexivity|]. eexists. rewrite <- app_assoc.
      split; [reflexivity|]. split; [|split].
      * intros c _; lia.
      * intros c [<- | [<- | []]]; [left; reflexivity | right].
        exists w1. cbv zeta. split; [reflexivity|].
        fold path. rewrite Hw. reflexivity.
      * intros _ _. eexists. right; left; reflexivity.
    + inversion H; subst; cbn [world log calls].
      split; [reflexivity|]. eexists. split; [reflexivity|]. split; [|split].
      * intros c _; lia.
      * intros c [<- | []]. left; reflexivity.
      * intros E; discriminate.
  - apply Z.ltb_ge in G. inversion H; subst.
    split; [reflexivity|]. exists []. rewrite app_nil_r.
    split; [reflexivity|]. split; [|split].
    + intros c [].
    + intros c [].
    + intros _ Hp. lia.
Qed.

(** ** [convert_folder] *)

Lemma get_ffmpeg_path_run (st : state W) :
  get_ffmpeg_path st
  = match find (fun path => shutil_which (world st) path
                            || os_path_exists (world st) path)
               ffmpeg_candidates with
    | Some path => (Ok (Some path), st)
    | None => (Ok None, mkState (world st) (log st ++ guidance) (calls st))
    end.
Proof.
  unfold get_ffmpeg_path, bind, read, ret, logging; cbn [world log calls].
  destruct (find _ _); [reflexivity|].
  cbn [world log calls]. repeat rewrite <- app_assoc. reflexivity.
Qed.

Lemma size_record_tail (x : record) :
  size_record x = true -> tail_record x = true.
Proof. destruct x as [l []]; cbv; intros H; congruence. Qed.

(** Every way the report and the list of failed files can go. *)
Lemma report_and_list_trace (output_folder : string) (mp4_files : list string)
    (total_files : Z) (start_time : Q) (success_count : Z) (st : state W)
    (r : Res unit) (st' : state W) :
  let path := os_path_join output_folder "failed_files.txt" in
  report_and_list output_folder mp4_files total_files start_time
    success_count st = (r, st') ->
  exists mins secs t cs,
    log st' = log st ++ report_head total_files success_count mins secs ++ t
    /\ forallb tail_record t = true
    /\ (success_count <= 0 -> forallb size_record t = true -> t = [])
    /\ calls st' = calls st ++ cs
    /\ (forall c, In c cs ->
          manifest_write (world st') output_folder mp4_files c)
    /\ (forall c, In c cs -> 0 < total_files - success_count)
    /\ (r = Ok tt -> 0 < total_files - success_count ->
        exists content, In (CallWriteClose path content) cs).
Proof.
  intros path H. unfold report_and_list, clock in H. unfold bind at 1 in H.
  destruct (time_time (world st)) as [now w1].
  destruct (mins_secs (now - start_time)) as [mins secs].
  unfold bind at 1 2 3 4 5 6, logging in H; cbn [world log calls] in H.
  unfold bind at 1 in H.
  match type of H with
  | context [report_sizes ?o ?f ?s ?x] =>
      destruct (report_sizes o f s x) as [r1 st1] eqn:E1
  end.
  apply report_sizes_trace in E1 as (Hw & Hc & d & Hl & Hd & Hz);
    cbn [world log calls] in *.
  exists mins, secs.
  destruct r1 as [[]|e].
  - unfold bind at 1 2, logging in H; cbn [world log calls] in H.
    apply save_failed_list_trace in H as (Hl2 & cs & Hc2 & Hopen & Hcs & Hwr);
      cbn [world log calls] in *.
    exists (d ++ report_close output_folder), cs.
    split; [|split; [|split; [|split; [|split; [|split]]]]].
    + rewrite Hl2, Hl. unfold report_head, report_close.
      repeat rewrite <- app_assoc. reflexivity.
    + rewrite forallb_app. apply andb_true_iff. split; [|reflexivity].
      apply forallb_forall. intros x Hx.
      apply size_record_tail, (In_forallb _ _ _ Hd Hx).
    + intros _ Hs. rewrite forallb_app in Hs.
      apply andb_true_iff in Hs as [_ Hs]. discriminate.
    + rewrite Hc2, Hc. reflexivity.
    + exact Hcs.
    + apply Hopen.
    + exact Hwr.
  - inversion H; subst. exists d, [].
    split; [|split; [|split; [|split; [|split; [|split]]]]].
    + rewrite Hl. unfold report_head. repeat rewrite <- app_assoc. reflexivity.
    + apply forallb_forall. intros x Hx.
      apply size_record_tail, (In_forallb _ _ _ Hd Hx).
    + intros Hle _. apply Hz; assumption.
    + rewrite Hc, app_nil_r. reflexivity.
    + intros c [].
    + intros c [].
    + intros E; discriminate.
Qed.

(** Every way a run of [convert_folder] can go: either no record of the
    report is logged and the list of failed files is not touched, or the
    loop came to its end and the report was started. *)
Lemma convert_folder_trace (input_folder : string)
    (output_folder : option string) (st : state W) (r : Res unit)
    (st' : state W) :
  let out := effective_output_folder input_folder output_folder in
  let path := os_path_join out "failed_files.txt" in
  let mp4_files :=
    collect_mp4 (snd (os_makedirs (world st) out)) input_folder in
  let total_files := Z.of_nat (List.length mp4_files) in
  convert_folder input_folder output_folder st = (r, st') ->
  exists new cs,
    log st' = log st ++ new
    /\ calls st' = calls st ++ cs
    /\ ((forallb (fun x => negb (report_record x)) new = true
         /\ forallb (fun c => negb (manifest_call c)) cs = true
         /\ (r = Ok tt -> count is_fail_mark new = 0))
        \/ exists d mins secs t cs1 cs2,
             new = (INFO, MsgFound total_files) :: d
                   ++ report_head total_files (count is_success_mark d)
                        mins secs ++ t
             /\ forallb loop_record d = true
             /\ forallb tail_record t = true
             /\ count is_success_mark d + count is_fail_mark d = total_files
             /\ cs = CallMakedirs out :: cs1 ++ cs2
             /\ forallb converter_call cs1 = true
             /\ (forall c, In c cs2 ->
                   manifest_write (world st') out mp4_files c)
             /\ (forall c, In c cs2 -> 0 < count is_fail_mark d)
             /\ (r = Ok tt -> 0 < count is_fail_mark d ->
                 exists content, In (CallWriteClose path content) cs2)).
Proof.
  intros out path mp4_files total_files H.
  unfold convert_folder in H. unfold bind at 1 in H.
  rewrite get_ffmpeg_path_run in H.
  destruct (find _ ffmpeg_candidates) as [ffmpeg_path|].
  2:{ unfold ret in H. inversion H; subst; cbn [world log calls].
      exists guidance, []. rewrite app_nil_r.
      split; [reflexivity | split; [reflexivity | left]].
      repeat split. }
  fold out in H. unfold bind at 1, effect at 1 in H.
  subst mp4_files total_files.
  destruct (os_makedirs (world st) out) as [[[]|e] w1];
    cbn [world log calls snd] in *.
  2:{ inversion H; subst; cbn [world log calls].
      exists [], [CallMakedirs out]. rewrite app_nil_r.
      split; [reflexivity | split; [reflexivity | left]].
      repeat split. }
  unfold bind at 1, read at 1 in H; cbn [world log calls] in H.
  destruct (collect_mp4 w1 input_folder) as [|f0 rest] eqn:Ef.
  { unfold logging in H. inversion H; subst; cbn [world log calls].
    exists [(WARNING, MsgNoMp4)], [CallMakedirs out].
    split; [reflexivity | split; [reflexivity | left]].
    repeat split. }
  set (mp4_files := f0 :: rest) in *.
  set (total_files := Z.of_nat (List.length mp4_files)) in *.
  unfold bind at 1, logging at 1 in H; cbn [world log calls] in H.
  unfold bind at 1, clock at 1 in H; cbn [world log calls] in H.
  destruct (time_time w1) as [start_time w2]; cbn [world log calls] in H.
  unfold bind at 1 in H.
  match type of H with
  | context [convert_loop ?a ?b ?c ?d ?e ?f ?g] =>
      destruct (convert_loop a b c d e f g) as [r1 st1] eqn:E1
  end.
  apply convert_loop_trace in E1 as (d & cs1 & L1 & C1 & D1 & K1 & S1);
    cbn [world log calls] in *.
  destruct r1 as [sc|e].
  - destruct (S1 sc eq_refl) as [Hsc Htot]. rewrite Z.add_0_l in Hsc.
    apply report_and_list_trace in H
      as (mins & secs & t & cs2 & L2 & T2 & _ & C2 & M2 & O2 & W2).
    exists ((INFO, MsgFound total_files) :: d
            ++ report_head total_files sc mins secs ++ t),
      (CallMakedirs out :: cs1 ++ cs2).
    split; [|split; [|right]].
    + rewrite L2, L1. repeat rewrite <- app_assoc. reflexivity.
    + rewrite C2, C1. repeat rewrite <- app_assoc. reflexivity.
    + exists d, mins, secs, t, cs1, cs2. subst sc.
      repeat (split; [first [reflexivity | assumption]|]).
      split.
      * intros c Hin. apply O2 in Hin. lia.
      * intros Hr Hp. apply W2; [assumption | lia].
  - inversion H; subst.
    exists ((INFO, MsgFound total_files) :: d), (CallMakedirs out :: cs1).
    split; [|split; [|left]].
    + rewrite L1. repeat rewrite <- app_assoc. reflexivity.
    + rewrite C1. repeat rewrite <- app_assoc. reflexivity.
    + split; [|split].
      * cbn [forallb]. apply andb_true_iff. split; [reflexivity|].
        apply forallb_forall. intros x Hx.
        pose proof (In_forallb _ _ _ D1 Hx) as Hs.
        destruct x as [l []]; cbv in Hs |- *; congruence.
      * cbn [forallb]. apply forallb_forall. intros c Hc.
        pose proof (In_forallb _ _ _ K1 Hc) as Hs.
        destruct c; cbv in Hs |- *; congruence.
      * intros E; discriminate.
Qed.

Lemma collect_mp4_nil (w : W) (input_folder : string) :
  (forall root dirs files file,
      In (root, dirs, files) (os_walk w input_folder) -> In file files ->
      Py.endswith (Py.lower file) ".mp4" = false) ->
  collect_mp4 w input_folder = [].
Proof.
  unfold collect_mp4. induction (os_walk w input_folder) as [|[[root dirs] files] l IH];
    intros H; cbn [flat_map]; [reflexivity|].
  rewrite IH by (intros; eapply H; [right|]; eassumption).
  rewrite app_nil_r.
  replace (filter _ files) with (@nil string); [reflexivity|].
  symmetry. induction files as [|f fs IHf]; cbn [filter]; [reflexivity|].
  rewrite (H root dirs (f :: fs) f) by (left; reflexivity).
  apply IHf. intros r d fl x Hin Hx.
  destruct Hin as [E | Hin].
  - inversion E; subst. apply (H r d (f :: fl) x); [left; reflexivity | right; assumption].
  - apply (H r d fl x); [right; assumption | assumption].
Qed.

(** In a report that has been started, the records of the counters are
    those of its head. *)
Lemma report_shape_In (total_files : Z) (d : list record) (head t : list record)
    (x : record) :
  forallb loop_record d = true -> forallb tail_record t = true ->
  loop_record x = false -> tail_record x = false ->
  x <> (INFO, MsgFound total_files) ->
  In x ((INFO, MsgFound total_files) :: d ++ head ++ t) -> In x head.
Proof.
  intros D T Hl Ht Hf [E | Hin]; [congruence|].
  apply in_app_or in Hin as [Hin | Hin].
  - pose proof (In_forallb _ _ _ D Hin). congruence.
  - apply in_app_or in Hin as [Hin | Hin]; [assumption|].
    pose proof (In_forallb _ _ _ T Hin). congruence.
Qed.

Lemma report_shape_count (p : record -> bool) (total_files : Z)
    (d head t : list record) :
  forallb tail_record t = true ->
  (forall x, tail_record x = true -> p x = false) ->
  p (INFO, MsgFound total_files) = false ->
  count p head = 0 ->
  count p ((INFO, MsgFound total_files) :: d ++ head ++ t) = count p d.
Proof.
  intros T Hp Hf Hh.
  change ((INFO, MsgFound total_files) :: d ++ head ++ t)
    with ([(INFO, MsgFound total_files)] ++ d ++ head ++ t).
  rewrite !count_app, Hh, (count_zero p tail_record t T Hp).
  unfold count at 1. cbn [filter]. rewrite Hf. simpl. lia.
Qed.

Lemma tail_not_success (x : record) :
  tail_record x = true -> is_success_mark x = false.
Proof. destruct x as [l []]; cbv; congruence. Qed.

Lemma tail_not_fail (x : record) :
  tail_record x = true -> is_fail_mark x = false.
Proof. destruct x as [l []]; cbv; congruence. Qed.

(** C4: in every run, the counters of the report, when they are logged,
    add up: succeeded + failed = total, where the total is the number of
    files discovered, succeeded is the number of files the loop marked as
    skipped or converted, and failed is the number of files it marked as
    failed. *)
Theorem report_counters_add_up (input_folder : string)
    (output_folder : option string) (st : state W) (r : Res unit)
    (st' : state W) :
  convert_folder input_folder output_folder st = (r, st') ->
  let out := effective_output_folder input_folder output_folder in
  let mp4_files :=
    collect_mp4 (snd (os_makedirs (world st) out)) input_folder in
  exists new,
    log st' = log st ++ new
    /\ forall total_files success_count failed_count,
        In (INFO, MsgTotal total_files) new ->
        In (INFO, MsgSucceeded success_count) new ->
        In (INFO, MsgFailed failed_count) new ->
        success_count + failed_count = total_files
        /\ total_files = Z.of_nat (List.length mp4_files)
        /\ success_count = count is_success_mark new
        /\ failed_count = count is_fail_mark new.
Proof.
  intros H out mp4_files.
  apply convert_folder_trace in H
    as (new & cs & L & _ & [(N & _) | (d & mins & secs & t & cs1 & cs2 & E & D & T & S & _)]).
  - exists new. split; [assumption|]. intros a b c Ha _ _.
    pose proof (In_forallb _ _ _ N Ha) as F. discriminate F.
  - exists new. split; [assumption|]. intros a b c Ha Hb Hc.
    fold out in E, S. fold mp4_files in E, S.
    set (total := Z.of_nat (List.length mp4_files)) in *.
    rewrite E in Ha, Hb, Hc.
    apply (report_shape_In _ _ _ _ _ D T) in Ha; [|reflexivity..|discriminate].
    apply (report_shape_In _ _ _ _ _ D T) in Hb; [|reflexivity..|discriminate].
    apply (report_shape_In _ _ _ _ _ D T) in Hc; [|reflexivity..|discriminate].
    unfold report_head in Ha, Hb, Hc. cbn [In] in Ha, Hb, Hc.
    assert (a = total) as ->
      by (repeat destruct Ha as [Ha | Ha]; try discriminate; try contradiction;
          inversion Ha; reflexivity).
    assert (b = count is_success_mark d) as ->
      by (repeat destruct Hb as [Hb | Hb]; try discriminate; try contradiction;
          inversion Hb; reflexivity).
    assert (c = total - count is_success_mark d) as ->
      by (repeat destruct Hc as [Hc | Hc]; try discriminate; try contradiction;
          inversion Hc; reflexivity).
    rewrite E.
    rewrite (report_shape_count is_success_mark) by
      (first [assumption | exact tail_not_success | reflexivity]).
    rewrite (report_shape_count is_fail_mark) by
      (first [assumption | exact tail_not_fail | reflexivity]).
    repeat split; lia.
Qed.

(** C6: when [get_ffmpeg_path] returns [None], [convert_folder] returns at
    once: the world is as it was (the output folder is neither created nor
    touched, nothing is written), no call is made ([convert_file] is not
    called), and the log gains the three records of the guidance only, none
    of which belongs to the report. *)
Theorem tool_not_found_aborts (input_folder : string)
    (output_folder : option string) (st : state W) :
  fst (get_ffmpeg_path st) = Ok None ->
  convert_folder input_folder output_folder st
  = (Ok tt, mkState (world st) (log st ++ guidance) (calls st))
  /\ forallb (fun x => negb (report_record x)) guidance = true.
Proof.
  intros H. split; [|reflexivity].
  unfold convert_folder. unfold bind at 1.
  rewrite get_ffmpeg_path_run in *.
  destruct (find _ ffmpeg_candidates); [discriminate H | reflexivity].
Qed.

(** C8: when the tool is found and the output folder is in place, and no
    file under the input folder has a name that ends with ".mp4" in any
    letter case, [convert_folder] logs one warning and returns: the log
    gains no record of the report, [convert_file] is not called and the
    list of failed files is not written (the only call is the [makedirs] of
    the output folder). *)
Theorem no_mp4_files (input_folder : string) (output_folder : option string)
    (st : state W) (ffmpeg_path : string) (w1 : W) :
  let out := effective_output_folder input_folder output_folder in
  fst (get_ffmpeg_path st) = Ok (Some ffmpeg_path) ->
  os_makedirs (world st) out = (Ok tt, w1) ->
  (forall root dirs files file,
      In (root, dirs, files) (os_walk w1 input_folder) -> In file files ->
      Py.endswith (Py.lower file) ".mp4" = false) ->
  convert_folder input_folder output_folder st
  = (Ok tt,
     mkState w1 (log st ++ [(WARNING, MsgNoMp4)])
       (calls st ++ [CallMakedirs out])).
Proof.
  intros out Hf Hm Hw.
  unfold convert_folder. unfold bind at 1.
  rewrite get_ffmpeg_path_run in *.
  destruct (find _ ffmpeg_candidates); [|discriminate Hf].
  fold out. unfold bind at 1, effect at 1. rewrite Hm; cbn [world log calls].
  unfold bind at 1, read at 1; cbn [world log calls].
  rewrite (collect_mp4_nil _ _ Hw). reflexivity.
Qed.

(** C7, as the code has it: in every run that returns, the list of failed
    files is written exactly when the loop marked at least one file as
    failed; the only file opened for writing is [failed_files.txt] in the
    output folder (opened with mode "w": created or emptied), and what is
    written is the heading followed by one line "i. name" for each
    discovered file, in order and numbered from 1, whose derived output
    does not exist when the list is written: an entry is listed exactly
    when it is a discovered file, with its index, whose output does not
    exist.  (A file that failed while an output of it exists is therefore
    not on the list.) *)
Theorem failed_list (input_folder : string) (output_folder : option string)
    (st st' : state W) :
  convert_folder input_folder output_folder st = (Ok tt, st') ->
  let out := effective_output_folder input_folder output_folder in
  let path := os_path_join out "failed_files.txt" in
  let mp4_files :=
    collect_mp4 (snd (os_makedirs (world st) out)) input_folder in
  exists new cs,
    log st' = log st ++ new
    /\ calls st' = calls st ++ cs
    /\ (0 < count is_fail_mark new
        <-> exists content, In (CallWriteClose path content) cs)
    /\ (forall c, In c cs -> manifest_call c = true ->
                  manifest_write (world st') out mp4_files c)
    /\ (forall w entry,
          In entry (listed_entries w out mp4_files)
          <-> In entry (enumerate 1 mp4_files)
              /\ os_path_exists w (derived_output_path out (snd entry))
                 = false).
Proof.
  intros H out path mp4_files.
  assert (Hlisted : forall w entry,
             In entry (listed_entries w out mp4_files)
             <-> In entry (enumerate 1 mp4_files)
                 /\ os_path_exists w (derived_output_path out (snd entry))
                    = false).
  { intros w entry. unfold listed_entries. rewrite filter_In, negb_true_iff.
    reflexivity. }
  apply convert_folder_trace in H
    as (new & cs & L & C
        & [(N & M & F)
          | (d & mins & secs & t & cs1 & cs2 & E & D & T & S & Ec & K & Mw & O & Wr)]).
  - exists new, cs.
    split; [assumption | split; [assumption | split; [|split; [|exact Hlisted]]]].
    + rewrite (F eq_refl). split; [lia|].
      intros (content & Hin). pose proof (In_forallb _ _ _ M Hin) as X.
      discriminate X.
    + intros c Hin Hm. pose proof (In_forallb _ _ _ M Hin) as X.
      cbv beta in X. rewrite Hm in X. discriminate X.
  - exists new, cs. fold out in E, S, Ec, Mw. fold mp4_files in E, S, Mw.
    fold path in O, Wr.
    split; [assumption | split; [assumption | split; [|split; [|exact Hlisted]]]].
    + rewrite E.
      rewrite (report_shape_count is_fail_mark) by
        (first [assumption | exact tail_not_fail | reflexivity]).
      split.
      * intros Hp. destruct (Wr eq_refl Hp) as (content & Hin).
        exists content. rewrite Ec. right. apply in_or_app. right. exact Hin.
      * intros (content & Hin). rewrite Ec in Hin.
        destruct Hin as [X | Hin]; [discriminate X|].
        apply in_app_or in Hin as [Hin | Hin].
        -- pose proof (In_forallb _ _ _ K Hin) as X. discriminate X.
        -- exact (O _ Hin).
    + rewrite Ec. intros c [<- | Hin] Hm; [discriminate Hm|].
      apply in_app_or in Hin as [Hin | Hin].
      * pose proof (In_forallb _ _ _ K Hin) as X.
        destruct c; cbv in X, Hm; congruence.
      * apply Mw; assumption.
Qed.

End FolderFacts.

(** ** Runs on the executable operating system *)

Ltac in_list := repeat (first [left; reflexivity | right]).

Lemma skip_rule_witness :
  (exists st',
      convert_one "ffmpeg" "/out" 1 1 "/in/clip.mp4" 0 (Sim.boot fresh_world)
      = (Ok 1, st') /\ calls st' = [])
  /\ (exists r st' cs,
         convert_one "ffmpeg" "/out" 1 1 "/in/clip.mp4" 0 (Sim.boot stale_output)
         = (r, st')
         /\ calls st'
            = CallConvertFile "ffmpeg" "/in/clip.mp4" "/out/clip.mpeg" :: cs).
Proof.
  split.
  - apply (proj1 (proj1 (skip_rule (os := Sim.sim_os) "ffmpeg" "/out" 1 1
                           "/in/clip.mp4" 0 (Sim.boot fresh_world)))).
    split; [reflexivity|]. exists 20%Q, 10%Q.
    split; [reflexivity | split; [reflexivity | reflexivity]].
  - apply (proj2 (proj2 (skip_rule (os := Sim.sim_os) "ffmpeg" "/out" 1 1
                           "/in/clip.mp4" 0 (Sim.boot stale_output)))).
    right. exists 5%Q, 10%Q.
    split; [reflexivity | split; [reflexivity | discriminate]].
Defined.

Lemma report_counters_add_up_witness :
  let run := convert_folder "/in" None (Sim.boot two_files) in
  In (INFO, MsgTotal 2) (log (snd run))
  /\ In (INFO, MsgSucceeded 1) (log (snd run))
  /\ In (INFO, MsgFailed 1) (log (snd run))
  /\ 1 + 1 = 2
  /\ 1 = count is_success_mark (log (snd run))
  /\ 1 = count is_fail_mark (log (snd run)).
Proof.
  intros run.
  destruct (report_counters_add_up (os := Sim.sim_os) "/in" None
              (Sim.boot two_files) (fst run) (snd run))
    as (new & L & H); [apply surjective_pairing|].
  change (log (snd run) = new) in L. rewrite <- L in H.
  assert (A : In (INFO, MsgTotal 2) (log (snd run))) by (vm_compute; in_list).
  assert (B : In (INFO, MsgSucceeded 1) (log (snd run)))
    by (vm_compute; in_list).
  assert (C : In (INFO, MsgFailed 1) (log (snd run))) by (vm_compute; in_list).
  destruct (H 2 1 1 A B C) as (E1 & _ & E3 & E4).
  exact (conj A (conj B (conj C (conj E1 (conj E3 E4))))).
Defined.

Lemma tool_not_found_aborts_witness :
  convert_folder "/in" None (Sim.boot no_tool)
  = (Ok tt, mkState no_tool guidance []).
Proof.
  apply (tool_not_found_aborts (os := Sim.sim_os) "/in" None (Sim.boot no_tool)).
  vm_compute. reflexivity.
Defined.

Lemma no_mp4_files_witness :
  convert_folder "/in" None (Sim.boot no_videos)
  = (Ok tt,
     mkState (snd (Sim.makedirs no_videos "/in/MPEG_360p_Output"))
       [(WARNING, MsgNoMp4)] [CallMakedirs "/in/MPEG_360p_Output"]).
Proof.
  apply (no_mp4_files (os := Sim.sim_os) "/in" None (Sim.boot no_videos)
           "ffmpeg").
  - vm_compute. reflexivity.
  - vm_compute. reflexivity.
  - intros root dirs files file Hin Hf. vm_compute in Hin.
    destruct Hin as [E | [E | []]]; inversion E; subst; clear E.
    + destruct Hf as [<- | []]. reflexivity.
    + destruct Hf.
Defined.

Lemma failed_list_witness :
  let run := convert_folder "/in" None (Sim.boot two_files) in
  let path := "/in/MPEG_360p_Output/failed_files.txt" in
  fst run = Ok tt
  /\ 0 < count is_fail_mark (log (snd run))
  /\ In (CallWriteClose path
           ("File yang gagal dikonversi:" ++ nl ++ "2. b.mp4" ++ nl)%string)
        (calls (snd run))
  /\ exists content, In (CallWriteClose path content) (calls (snd run)).
Proof.
  intros run path.
  destruct (failed_list (os := Sim.sim_os) "/in" None (Sim.boot two_files)
              (snd run)) as (new & cs & L & C & Hiff & _ & _);
    [vm_compute; reflexivity|].
  change (log (snd run) = new) in L. change (calls (snd run) = cs) in C.
  rewrite <- L, <- C in Hiff.
  assert (P : 0 < count is_fail_mark (log (snd run)))
    by (vm_compute; reflexivity).
  split; [vm_compute; reflexivity | split; [exact P | split]].
  - vm_compute. in_list.
  - apply Hiff. exact P.
Defined.

(** In a run where [a.mp4] converts and [b.mp4] fails while an older output
    of [b.mp4] is in the output folder, the list of failed files is written
    and holds its heading only: [b.mp4] is not on it. *)
Lemma failed_file_with_stale_output_not_listed :
  let run := convert_folder "/in" (Some "/out") (Sim.boot stale_and_failing) in
  let content := ("File yang gagal dikonversi:" ++ nl)%string in
  fst run = Ok tt
  /\ In (INFO, MsgSucceeded 1) (log (snd run))
  /\ In (ERROR, MsgFail "b.mp4") (log (snd run))
  /\ In (INFO, MsgFailed 1) (log (snd run))
  /\ filter manifest_call (calls (snd run))
     = [ CallOpenW "/out/failed_files.txt";
         CallWriteClose "/out/failed_files.txt" content ]
  /\ Py.contains "b.mp4" content = false.
Proof.
  vm_compute. repeat split; in_list.
Qed.

Lemma space_report_witness :
  let st := Sim.boot fresh_world in
  let run := report_and_list "/out" ["/in/clip.mp4"] 1 0 1 st in
  In (INFO, MsgInputSize (to_mb 4194304)) (log (snd run))
  /\ In (INFO, MsgOutputSize (to_mb 1048576)) (log (snd run))
  /\ In (INFO, MsgSavings (to_mb 4194304 - to_mb 1048576)%Q
                  (spec_savings_percent 4194304 1048576))
        (log (snd run)).
Proof.
  intros st run.
  pose proof (space_report (os := Sim.sim_os) "/out" ["/in/clip.mp4"] 1 0 1 st
                100 (Sim.tick fresh_world 1) eq_refl) as H.
  assert (Em : mins_secs (100 - 0) = (1, 40)) by (vm_compute; reflexivity).
  rewrite Em in H. cbv beta iota zeta in H. destruct H as [Hpos _].
  destruct (Hpos ltac:(lia) 4194304 1048576 ["clip.mpeg"]) as [E _].
  - vm_compute. reflexivity.
  - vm_compute. reflexivity.
  - vm_compute. reflexivity.
  - unfold run. rewrite E. unfold save_failed_list. cbn [Z.ltb Z.compare Pos.compare Pos.compare_cont].
    unfold ret, size_records, report_head, report_close; cbn [snd log app].
    split; [in_list | split; in_list].
Defined.

(** After a run in which every file failed, the report is logged with its
    counters, and none of the three size records is. *)
Lemma no_space_report_when_all_fail :
  let run := convert_folder "/in" (Some "/out") (Sim.boot all_fail) in
  fst run = Ok tt
  /\ In (INFO, MsgTotal 1) (log (snd run))
  /\ In (INFO, MsgSucceeded 0) (log (snd run))
  /\ In (INFO, MsgFailed 1) (log (snd run))
  /\ In (INFO, MsgRule) (log (snd run))
  /\ existsb size_record (log (snd run)) = false.
Proof.
  vm_compute. repeat split; in_list.
Qed.

(** * Further properties *)

(** ** More on strings *)

Module PyMore.

Lemma filter_app (p : ascii -> bool) (a b : string) :
  Py.filter p (a ++ b) = (Py.filter p a ++ Py.filter p b)%string.
Proof.
  induction a as [|c a IH]; simpl; [reflexivity|].
  destruct (p c); simpl; rewrite IH; reflexivity.
Qed.

Lemma filter_length_le (p : ascii -> bool) (s : string) :
  (String.length (Py.filter p s) <= String.length s)%nat.
Proof.
  induction s as [|c s IH]; simpl; [lia|].
  destruct (p c); simpl; lia.
Qed.

Lemma filter_empty (p : ascii -> bool) (s : string) :
  Py.filter p s = "" <-> Py.all_chars (fun c => negb (p c)) s = true.
Proof.
  induction s as [|c s IH]; simpl; [tauto|].
  destruct (p c); simpl; [split; discriminate | exact IH].
Qed.

Lemma take_empty (n : nat) (s : string) :
  Py.take (S n) s = "" <-> s = "".
Proof. destruct s; simpl; split; congruence. Qed.

Lemma length_app (a b : string) :
  String.length (a ++ b) = (String.length a + String.length b)%nat.
Proof. induction a as [|c a IH]; simpl; [reflexivity | rewrite IH; reflexivity]. Qed.

Lemma take_app_length (a b : string) :
  Py.take (String.length a) (a ++ b) = a.
Proof. induction a as [|c a IH]; simpl; [destruct b; reflexivity | rewrite IH; reflexivity]. Qed.

Lemma take_drop (n : nat) (s : string) :
  (Py.take n s ++ Py.drop n s)%string = s.
Proof.
  revert s; induction n as [|n IH]; intros [|c s]; simpl; try reflexivity.
  rewrite IH. reflexivity.
Qed.

Lemma endswith_app (a b : string) : Py.endswith (a ++ b) b = true.
Proof.
  induction a as [|c a IH].
  - simpl. destruct b; simpl; rewrite ?String.eqb_refl, ?Ascii.eqb_refl; reflexivity.
  - change (String c a ++ b)%string with (String c (a ++ b)).
    cbn [Py.endswith]. rewrite IH. apply orb_true_r.
Qed.

Lemma all_chars_app (p : ascii -> bool) (a b : string) :
  Py.all_chars p (a ++ b) = Py.all_chars p a && Py.all_chars p b.
Proof.
  induction a as [|c a IH]; simpl; [reflexivity|].
  rewrite IH. apply andb_assoc.
Qed.

End PyMore.

(** ** More on [sanitize_filename] *)

(** X1: an illegal character, wherever it stands in a name, changes nothing
    of the sanitized name: two names that differ by such characters only
    have one sanitized name (and so one derived output). *)
Theorem sanitize_filename_ignores_illegal (a b : string) (c : ascii) :
  illegal_char c = true ->
  sanitize_filename (a ++ String c b) = sanitize_filename (a ++ b).
Proof.
  intros H. rewrite !sanitize_filename_take, !PyMore.filter_app.
  cbn [Py.filter]. unfold legal at 2. rewrite H. reflexivity.
Qed.

Lemma sanitize_filename_ignores_illegal_witness :
  sanitize_filename ("what" ++ String "?" ".mp4") = sanitize_filename ("what" ++ ".mp4").
Proof. apply sanitize_filename_ignores_illegal. reflexivity. Defined.

(** X2: the sanitized name is never longer than the name, and it is empty
    exactly when every character of the name is illegal. *)
Theorem sanitize_filename_shrinks (filename : string) :
  (String.length (sanitize_filename filename) <= String.length filename)%nat
  /\ (sanitize_filename filename = ""
      <-> Py.all_chars illegal_char filename = true).
Proof.
  rewrite sanitize_filename_take. split.
  - pose proof (PyFacts.take_length_le 150 (Py.filter legal filename)).
    pose proof (PyMore.filter_length_le legal filename).
    destruct (Nat.le_gt_cases (String.length (Py.filter legal filename)) 150)
      as [L | L].
    + rewrite PyFacts.take_all by assumption. assumption.
    + lia.
  - rewrite PyMore.take_empty, PyMore.filter_empty.
    assert (E : forall s, Py.all_chars (fun c => negb (legal c)) s
                          = Py.all_chars illegal_char s).
    { induction s as [|c s IH]; simpl; [reflexivity|].
      unfold legal at 1. rewrite negb_involutive, IH. reflexivity. }
    rewrite E. reflexivity.
Qed.

(** ** More on the error message *)

(** X3: the message taken from the diagnostic stream is never empty, and
    when no line matches it has at most 500 characters. *)
Theorem extract_error_msg_nonempty (stderr : string) :
  extract_error_msg stderr <> ""
  /\ (spec_first_matching_line stderr = None ->
      (String.length (extract_error_msg stderr) <= 500)%nat).
Proof.
  destruct (spec_first_matching_line stderr) as [line|] eqn:E.
  - split; [|discriminate].
    rewrite (extract_error_msg_match _ _ E).
    apply line_matches_strip.
    unfold spec_first_matching_line in E. apply find_some in E. apply E.
  - rewrite (extract_error_msg_no_match _ E).
    destruct stderr as [|c r]; cbn [Py.falsy].
    + split; [discriminate | intros _; simpl; lia].
    + split.
      * intros H. apply PyFacts.last_chars_empty in H; [discriminate | lia].
      * intros _. unfold Py.last_chars. rewrite PyFacts.drop_length. lia.
Qed.

(** ** [main] *)

(** X4: quotes put around a path are taken off again, whatever the path;
    a string that does not start with a quote is left as it is; a lone
    quote gives the empty string. *)
Theorem strip_drag_quotes_round_trip :
  (forall path : string,
      strip_drag_quotes (double_quote ++ path ++ double_quote) = path)
  /\ (forall s : string,
        Py.startswith s double_quote = false -> strip_drag_quotes s = s)
  /\ strip_drag_quotes double_quote = "".
Proof.
  split; [|split].
  - intros path. unfold strip_drag_quotes.
    change (double_quote ++ path ++ double_quote)%string
      with (String "034" (path ++ double_quote)).
    replace (Py.startswith (String "034" (path ++ double_quote)) double_quote)
      with true by (destruct (path ++ double_quote)%string; reflexivity).
    change (String "034" (path ++ double_quote))
      with (double_quote ++ path ++ double_quote)%string at 1.
    rewrite <- PyFacts.append_assoc, PyMore.endswith_app. cbn [andb].
    unfold slice_1_m1. cbn [Py.drop String.length].
    rewrite PyMore.length_app. cbn [String.length double_quote].
    replace (S (String.length path + 1) - 2)%nat with (String.length path)
      by lia.
    apply PyMore.take_app_length.
  - intros s H. unfold strip_drag_quotes. rewrite H. reflexivity.
  - reflexivity.
Qed.

Lemma strip_drag_quotes_round_trip_witness :
  strip_drag_quotes (double_quote ++ "C:\my videos" ++ double_quote)
  = "C:\my videos"
  /\ strip_drag_quotes "/srv/videos" = "/srv/videos".
Proof.
  split.
  - apply (proj1 strip_drag_quotes_round_trip).
  - apply (proj1 (proj2 strip_drag_quotes_round_trip)). reflexivity.
Defined.



(** X6: when the output folder is not on the command line it is asked
    for: an answer that is blank after stripping selects the default
    ([None]), any other answer is stripped and unquoted; and when the
    standard input has no line left, [EOFError] is raised. *)
Theorem main_folders_asks_output (script input_arg : string)
    (answer : string) (rest : list string) :
  main_folders [script; input_arg] (answer :: rest)
  = (Ok (strip_drag_quotes input_arg,
         if Py.falsy (Py.strip answer) then None
         else Some (strip_drag_quotes (Py.strip answer))), rest)
  /\ fst (main_folders [script; input_arg] [])
     = Raise (mkExn OtherException "EOF when reading a line")
  /\ fst (main_folders [script] [])
     = Raise (mkExn OtherException "EOF when reading a line").
Proof.
  split; [|split]; try reflexivity.
  unfold main_folders. cbn [List.length Z.of_nat Z.gtb Z.compare
    Pos.of_succ_nat Pos.succ Pos.compare Pos.compare_cont builtin_input argv_at nth].
  destruct (Py.falsy (Py.strip answer)); reflexivity.
Qed.

(** ** [get_ffmpeg_path] *)

Lemma find_first {A} (f : A -> bool) (l : list A) (x : A) :
  find f l = Some x
  <-> exists before after,
        l = before ++ x :: after
        /\ f x = true
        /\ forallb (fun y => negb (f y)) before = true.
Proof.
  split.
  - induction l as [|y l IH]; cbn [find]; [discriminate|].
    destruct (f y) eqn:E.
    + intros H; inversion H; subst. exists [], l. repeat split. assumption.
    + intros H. destruct (IH H) as (b & a & -> & Hx & Hb).
      exists (y :: b), a. cbn [forallb]. rewrite E, Hb. repeat split.
      assumption.
  - intros (b & a & -> & Hx & Hb).
    induction b as [|y b IH]; cbn [find app].
    + rewrite Hx. reflexivity.
    + cbn [forallb] in Hb. apply andb_true_iff in Hb as [Hy Hb].
      apply negb_true_iff in Hy. rewrite Hy. apply IH. assumption.
Qed.

Section LocatorFacts.

Context {W : Type} {os : OS W}.

(** X7: [get_ffmpeg_path] returns a path exactly when that path is the
    first of the four candidates, in their fixed order, that [shutil.which]
    finds or that exists; it then logs nothing and changes nothing. *)
Theorem get_ffmpeg_path_first (st : state W) (path : string) :
  get_ffmpeg_path st = (Ok (Some path), st)
  <-> exists before after,
        ffmpeg_candidates = before ++ path :: after
        /\ resolves (world st) path = true
        /\ forallb (fun q => negb (resolves (world st) q)) before = true.
Proof.
  rewrite get_ffmpeg_path_run.
  fold (resolves (world st)).
  change (fun path0 : string => resolves (world st) path0)
    with (resolves (world st)).
  rewrite <- (find_first (resolves (world st))).
  destruct (find (resolves (world st)) ffmpeg_candidates) as [p|].
  - split; intros H; inversion H; reflexivity.
  - split; intros H; [|discriminate]. inversion H.
Qed.

(** X8: [get_ffmpeg_path] returns [None] exactly when none of the four
    candidates resolves; it then logs one error and two hints, and in no
    case does it raise, touch the world or make a call. *)
Theorem get_ffmpeg_path_none (st : state W) :
  (fst (get_ffmpeg_path st) = Ok None
   <-> forallb (fun q => negb (resolves (world st) q)) ffmpeg_candidates = true)
  /\ (fst (get_ffmpeg_path st) = Ok None ->
      snd (get_ffmpeg_path st)
      = mkState (world st) (log st ++ guidance) (calls st))
  /\ (exists r, fst (get_ffmpeg_path st) = Ok r)
  /\ world (snd (get_ffmpeg_path st)) = world st
  /\ calls (snd (get_ffmpeg_path st)) = calls st.
Proof.
  rewrite get_ffmpeg_path_run.
  change (fun path0 : string =>
            shutil_which (world st) path0 || os_path_exists (world st) path0)
    with (resolves (world st)).
  destruct (find (resolves (world st)) ffmpeg_candidates) as [p|] eqn:E;
    cbn [fst snd world calls].
  - split; [|split; [|split; [|split]]]; try reflexivity.
    + split; [discriminate|]. intros H.
      apply find_some in E as [Hin Hp].
      pose proof (In_forallb _ _ _ H Hin) as X. cbv beta in X.
      rewrite Hp in X. discriminate X.
    + discriminate.
    + eexists; reflexivity.
  - split; [|split; [|split; [|split]]]; try reflexivity.
    + split; [intros _|reflexivity].
      apply forallb_forall. intros q Hq. apply negb_true_iff.
      exact (find_none _ _ E q Hq).
    + eexists; reflexivity.
Qed.

End LocatorFacts.

Lemma get_ffmpeg_path_first_witness :
  get_ffmpeg_path (Sim.boot tool_in_c_ffmpeg)
  = (Ok (Some "C:\ffmpeg\bin\ffmpeg.exe"), Sim.boot tool_in_c_ffmpeg).
Proof.
  apply (get_ffmpeg_path_first (os := Sim.sim_os)).
  exists ["ffmpeg"],
    ["C:\Program Files\ffmpeg\bin\ffmpeg.exe";
     "C:\Program Files (x86)\ffmpeg\bin\ffmpeg.exe"].
  split; [reflexivity | split; vm_compute; reflexivity].
Defined.

Lemma get_ffmpeg_path_none_witness :
  snd (get_ffmpeg_path (Sim.boot no_tool)) = mkState no_tool guidance [].
Proof.
  apply (get_ffmpeg_path_none (os := Sim.sim_os) (Sim.boot no_tool)).
  vm_compute. reflexivity.
Defined.

(** ** More on [convert_file] *)

Ltac cf_unfold :=
  unfold convert_file, with_TemporaryDirectory, convert_in_tmp, try_except,
    bind, ret, effect, enter, read, read_res, of_res;
  cbn [world log calls].

Ltac cf_os_case op :=
  let r := fresh "r" in
  let w := fresh "w" in
  let E := fresh "E" in
  destruct op as [r w] eqn:E; try destruct r; cbn [world log calls fst snd].

Ltac cf_res_case op :=
  let E := fresh "E" in destruct op eqn:E; cbn [world log calls fst snd].

Ltac cf_next :=
  match goal with
  | |- context [tempdir_enter ?w] => cf_os_case (tempdir_enter w)
  | |- context [shutil_copy2 ?w ?a ?b] => cf_os_case (shutil_copy2 w a b)
  | |- context [subprocess_run ?w ?c ?t] => cf_os_case (subprocess_run w c t)
  | |- context [tempdir_exit ?w ?d] => cf_os_case (tempdir_exit w d)
  | |- context [os_path_getsize ?w ?p] => cf_res_case (os_path_getsize w p)
  | |- context [Qeq_bool ?a ?b] => cf_res_case (Qeq_bool a b)
  | |- context [returncode ?r =? 0] => cf_res_case (returncode r =? 0)
  end.

Section ConvertFileMore.

Context {W : Type} {os : OS W}.

(** X9: when the tool exits with 0, the output is copied to its place and
    the two sizes are read, the input not being empty, [convert_file]
    returns success with the size of the output in MB and the compression
    ratio [(1 - output_size / input_size) * 100]; the calls are the entry
    into the temporary directory, the copy of the input, one launch with
    the deadline 600, the copy of the output and the removal of the
    directory, in this order. *)
Theorem convert_file_success (ffmpeg_path input_path output_path : string)
    (st : state W) (tmp_dir : string) (w1 w2 w3 w4 w5 : W)
    (result : CompletedProcess) (input_bytes output_bytes : Z) :
  let tmp_input := os_path_join tmp_dir "input.mp4" in
  let tmp_output := os_path_join tmp_dir "output.mpeg" in
  let command := ffmpeg_command ffmpeg_path tmp_input tmp_output in
  tempdir_enter (world st) = (Ok tmp_dir, w1) ->
  shutil_copy2 w1 input_path tmp_input = (Ok tt, w2) ->
  subprocess_run w2 command 600 = (Ok result, w3) ->
  returncode result = 0 ->
  shutil_copy2 w3 tmp_output output_path = (Ok tt, w4) ->
  os_path_getsize w4 input_path = Ok input_bytes ->
  os_path_getsize w4 output_path = Ok output_bytes ->
  input_bytes <> 0 ->
  tempdir_exit w4 tmp_dir = (Ok tt, w5) ->
  convert_file ffmpeg_path input_path output_path st
  = (Ok (true,
         SizeSummary (to_mb output_bytes)
           ((1 - to_mb output_bytes / to_mb input_bytes) * 100)%Q),
     mkState w5 (log st)
       (calls st ++ [ CallConvertFile ffmpeg_path input_path output_path;
                      CallTempdirEnter;
                      CallCopy2 input_path tmp_input;
                      CallRun command 600;
                      CallCopy2 tmp_output output_path;
                      CallTempdirExit tmp_dir ])).
Proof.
  intros tmp_input tmp_output command H1 H2 H3 H4 H5 H6 H7 H8 H9.
  cf_unfold. rewrite H1; cbn [world log calls].
  fold tmp_input. rewrite H2; cbn [world log calls].
  fold tmp_output. fold command. rewrite H3; cbn [world log calls].
  apply Z.eqb_eq in H4. rewrite H4; cbn [world log calls].
  rewrite H5; cbn [world log calls]. rewrite H6, H7.
  unfold truediv. rewrite to_mb_eq_0.
  apply Z.eqb_neq in H8. rewrite H8; cbn [world log calls].
  rewrite H9. repeat rewrite <- app_assoc. reflexivity.
Qed.

(** X10: when the input is an empty file and the tool exits with 0 all the
    same, the output is copied to its place and [convert_file] then
    returns the failure "float division by zero": the file is counted as
    failed although its output exists. *)
Theorem convert_file_empty_input (ffmpeg_path input_path output_path : string)
    (st : state W) (tmp_dir : string) (w1 w2 w3 w4 w5 : W)
    (result : CompletedProcess) (output_bytes : Z) :
  let tmp_input := os_path_join tmp_dir "input.mp4" in
  let tmp_output := os_path_join tmp_dir "output.mpeg" in
  let command := ffmpeg_command ffmpeg_path tmp_input tmp_output in
  tempdir_enter (world st) = (Ok tmp_dir, w1) ->
  shutil_copy2 w1 input_path tmp_input = (Ok tt, w2) ->
  subprocess_run w2 command 600 = (Ok result, w3) ->
  returncode result = 0 ->
  shutil_copy2 w3 tmp_output output_path = (Ok tt, w4) ->
  os_path_getsize w4 input_path = Ok 0 ->
  os_path_getsize w4 output_path = Ok output_bytes ->
  tempdir_exit w4 tmp_dir = (Ok tt, w5) ->
  convert_file ffmpeg_path input_path output_path st
  = (Ok (false, ErrorText "float division by zero"),
     mkState w5 (log st)
       (calls st ++ [ CallConvertFile ffmpeg_path input_path output_path;
                      CallTempdirEnter;
                      CallCopy2 input_path tmp_input;
                      CallRun command 600;
                      CallCopy2 tmp_output output_path;
                      CallTempdirExit tmp_dir ])).
Proof.
  intros tmp_input tmp_output command H1 H2 H3 H4 H5 H6 H7 H9.
  cf_unfold. rewrite H1; cbn [world log calls].
  fold tmp_input. rewrite H2; cbn [world log calls].
  fold tmp_output. fold command. rewrite H3; cbn [world log calls].
  apply Z.eqb_eq in H4. rewrite H4; cbn [world log calls].
  rewrite H5; cbn [world log calls]. rewrite H6, H7.
  unfold truediv. rewrite to_mb_eq_0. cbn [Z.eqb world log calls].
  rewrite H9. repeat rewrite <- app_assoc. reflexivity.
Qed.

(** X11: once the temporary directory is entered, every way out of
    [convert_file] removes it: the last call is the removal of that
    directory, it is the only removal, and no second directory is
    entered.  When the directory cannot be entered, no other call is
    made. *)
Theorem convert_file_cleans_up (ffmpeg_path input_path output_path : string)
    (st : state W) :
  (forall tmp_dir w1,
      tempdir_enter (world st) = (Ok tmp_dir, w1) ->
      exists cs,
        calls (snd (convert_file ffmpeg_path input_path output_path st))
        = calls st
          ++ CallConvertFile ffmpeg_path input_path output_path
             :: CallTempdirEnter :: cs
        /\ last cs CallTempdirEnter = CallTempdirExit tmp_dir
        /\ count is_tempdir_exit cs = 1
        /\ count is_tempdir_enter cs = 0)
  /\ (forall e w1,
        tempdir_enter (world st) = (Raise e, w1) ->
        snd (convert_file ffmpeg_path input_path output_path st)
        = mkState w1 (log st)
            (calls st
             ++ [ CallConvertFile ffmpeg_path input_path output_path;
                  CallTempdirEnter ])).
Proof.
  split.
  - intros tmp_dir w1 H1. cf_unfold. unfold truediv.
    rewrite H1; cbn [world log calls].
    repeat cf_next;
      repeat rewrite <- app_assoc; cbn [app];
      eexists; (split; [reflexivity | repeat split]).
  - intros e w1 H1. cf_unfold. rewrite H1; cbn [world log calls snd].
    rewrite <- app_assoc. reflexivity.
Qed.


End ConvertFileMore.

(** ** More on [convert_folder] *)

Ltac cf_run :=
  match goal with
  | |- context [convert_file ?f ?i ?o ?s] =>
      let r := fresh "r" in
      let w := fresh "w" in
      let cs := fresh "cs" in
      let E := fresh "E" in
      destruct (convert_file_returns f i o s) as (r & w & cs & E & ? & ?);
      rewrite E; cbn [world log calls];
      destruct r as [[] ?]; cbn [world log calls]
  end.

Ltac one_unfold :=
  unfold convert_one, already_converted, bind, ret, read, read_res, logging;
  cbn [world log calls].

Lemma append_nil_r (s : string) : (s ++ "")%string = s.
Proof. induction s as [|c s IH]; simpl; [reflexivity | rewrite IH; reflexivity]. Qed.

Lemma sim_splitext_splits (s : string) :
  s = (fst (Sim.splitext s) ++ snd (Sim.splitext s))%string.
Proof.
  unfold Sim.splitext.
  destruct (Py.rfind "." s >? Py.rfind "/" s); cbn [fst snd].
  - destruct (Py.all_chars _ _); cbn [fst snd].
    + symmetry; apply append_nil_r.
    + symmetry; apply PyMore.take_drop.
  - symmetry; apply append_nil_r.
Qed.

Section FolderMore.

Context {W : Type} {os : OS W}.

(** X13: a path is discovered exactly when it is the join of a walked
    directory with one of its file names, and that name, in lower case,
    ends with ".mp4". *)
Theorem collect_mp4_In (w : W) (input_folder path : string) :
  In path (collect_mp4 w input_folder)
  <-> exists root dirs files file,
        In (root, dirs, files) (os_walk w input_folder)
        /\ In file files
        /\ Py.endswith (Py.lower file) ".mp4" = true
        /\ path = os_path_join root file.
Proof.
  unfold collect_mp4. rewrite in_flat_map. split.
  - intros ([[root dirs] files] & Hw & Hin).
    apply in_map_iff in Hin as (file & <- & Hf).
    apply filter_In in Hf as [Hf He].
    exists root, dirs, files, file. repeat split; assumption.
  - intros (root & dirs & files & file & Hw & Hf & He & ->).
    exists (root, dirs, files). split; [assumption|].
    apply in_map. apply filter_In. split; assumption.
Qed.

(** X14: where [os.path.splitext] splits its argument in two, the name of
    every output is a stem followed by ".mpeg", and the stem, a prefix of
    the sanitized name of the input, has none of the nine illegal
    characters and at most 150 characters. *)
Theorem derived_output_name (output_folder input_path : string) :
  splitext_splits ->
  derived_output_path output_folder input_path
  = os_path_join output_folder (output_stem input_path ++ ".mpeg")
  /\ clean_name (output_stem input_path)
  /\ (String.length (output_stem input_path) <= 150)%nat
  /\ Py.endswith (output_stem input_path ++ ".mpeg") ".mpeg" = true.
Proof.
  intros Hs. unfold output_stem.
  set (safe := sanitize_filename (os_path_basename input_path)).
  pose proof (Hs safe) as E.
  split; [reflexivity | split; [|split]].
  - apply clean_name_all_chars.
    pose proof (sanitize_filename_clean (os_path_basename input_path)) as C.
    fold safe in C. rewrite E, PyMore.all_chars_app in C.
    apply andb_true_iff in C. apply C.
  - assert (L : (String.length safe <= 150)%nat).
    { unfold safe. rewrite sanitize_filename_take.
      apply PyFacts.take_length_le. }
    rewrite E, PyMore.length_app in L. lia.
  - apply PyMore.endswith_app.
Qed.

(** X15: in every run, the counters of the report are not negative: the
    number of successes is at least 0 and at most the total, and the
    number of failures is at least 0. *)
Theorem report_counters_bounds (input_folder : string)
    (output_folder : option string) (st : state W) (r : Res unit)
    (st' : state W) :
  convert_folder input_folder output_folder st = (r, st') ->
  exists new,
    log st' = log st ++ new
    /\ forall total_files success_count failed_count,
        In (INFO, MsgTotal total_files) new ->
        In (INFO, MsgSucceeded success_count) new ->
        In (INFO, MsgFailed failed_count) new ->
        0 <= success_count <= total_files
        /\ 0 <= failed_count <= total_files.
Proof.
  intros H.
  apply convert_folder_trace in H
    as (new & cs & L & _
        & [(N & _) | (d & mins & secs & t & cs1 & cs2 & E & D & T & S & _)]).
  - exists new. split; [assumption|]. intros a b c Ha _ _.
    pose proof (In_forallb _ _ _ N Ha) as F. discriminate F.
  - exists new. split; [assumption|]. intros a b c Ha Hb Hc.
    rewrite E in Ha, Hb, Hc.
    apply (report_shape_In _ _ _ _ _ D T) in Ha; [|reflexivity..|discriminate].
    apply (report_shape_In _ _ _ _ _ D T) in Hb; [|reflexivity..|discriminate].
    apply (report_shape_In _ _ _ _ _ D T) in Hc; [|reflexivity..|discriminate].
    unfold report_head in Ha, Hb, Hc. cbn [In] in Ha, Hb, Hc.
    assert (a = count is_success_mark d + count is_fail_mark d) as ->
      by (rewrite S; repeat destruct Ha as [Ha | Ha]; try discriminate;
          try contradiction; inversion Ha; reflexivity).
    assert (b = count is_success_mark d) as ->
      by (repeat destruct Hb as [Hb | Hb]; try discriminate; try contradiction;
          inversion Hb; reflexivity).
    assert (c = count is_fail_mark d) as ->
      by (repeat destruct Hc as [Hc | Hc]; try discriminate; try contradiction;
          inversion Hc; rewrite <- S; lia).
    unfold count. lia.
Qed.

(** X16: when the output of every file exists and is newer than the file,
    the loop skips them all: every file is counted a success, the tool is
    never launched, no call is made and the world is as it was; the log
    gains the two records of a skip for each file, in order. *)
Theorem convert_loop_all_fresh (ffmpeg_path output_folder : string)
    (total_files : Z) (mp4_files : list string) :
  forall (i success_count : Z) (st : state W),
    (forall input_path,
        In input_path mp4_files ->
        fresh_output (world st) input_path
          (derived_output_path output_folder input_path)) ->
    convert_loop ffmpeg_path output_folder total_files i mp4_files
      success_count st
    = (Ok (success_count + Z.of_nat (List.length mp4_files)),
       mkState (world st)
         (log st ++ flat_map (skip_records total_files)
                      (enumerate i mp4_files))
         (calls st)).
Proof.
  induction mp4_files as [|p rest IH]; intros i sc st H.
  - cbn [convert_loop enumerate flat_map List.length]. unfold ret.
    rewrite app_nil_r, Z.add_0_r. destruct st; reflexivity.
  - rewrite convert_loop_cons.
    rewrite convert_one_skips by (apply H; left; reflexivity).
    rewrite IH by (intros q Hq; apply H; right; assumption).
    cbn [world log calls enumerate flat_map skip_records fst snd List.length].
    rewrite <- app_assoc. cbn [app].
    replace (sc + 1 + Z.of_nat (List.length rest))
      with (sc + Z.of_nat (S (List.length rest))) by lia.
    reflexivity.
Qed.

(** X17: an iteration of the loop raises only when the output exists and
    one of the two modification times cannot be read; [convert_file] has
    then not been called and the world is as it was.  (A failure of
    [convert_file] never ends the loop.) *)
Theorem convert_one_raises (ffmpeg_path output_folder : string)
    (total_files i : Z) (input_path : string) (success_count : Z)
    (st : state W) (e : exn) (st' : state W) :
  let output_path := derived_output_path output_folder input_path in
  convert_one ffmpeg_path output_folder total_files i input_path
    success_count st = (Raise e, st') ->
  os_path_exists (world st) output_path = true
  /\ (os_path_getmtime (world st) output_path = Raise e
      \/ exists m, os_path_getmtime (world st) output_path = Ok m
                   /\ os_path_getmtime (world st) input_path = Raise e)
  /\ calls st' = calls st
  /\ world st' = world st.
Proof.
  intros output_path. one_unfold. fold output_path.
  destruct (os_path_exists (world st) output_path); cbn [world log calls].
  - destruct (os_path_getmtime (world st) output_path) as [mo|e1];
      cbn [world log calls].
    + destruct (os_path_getmtime (world st) input_path) as [mi|e2];
        cbn [world log calls].
      * destruct (Qgt_bool mo mi); cbn [world log calls].
        -- intros X. discriminate X.
        -- cf_run; intros X; discriminate X.
      * intros X. inversion X; subst; cbn [world log calls].
        repeat split. right. exists mo. split; reflexivity.
    + intros X. inversion X; subst; cbn [world log calls].
      repeat split. left. reflexivity.
  - cf_run; intros X; discriminate X.
Qed.

End FolderMore.

Section ProgressFacts.

Context {W : Type} {os : OS W}.

Lemma convert_one_progress (ffmpeg_path output_folder : string)
    (total_files i : Z) (input_path : string) (success_count : Z)
    (st : state W) (r : Res Z) (st' : state W) :
  convert_one ffmpeg_path output_folder total_files i input_path
    success_count st = (r, st') ->
  exists d,
    log st' = log st ++ progress_record total_files (i, input_path) :: d
    /\ filter is_progress d = [].
Proof.
  one_unfold. unfold progress_record; cbn [fst snd].
  destruct (os_path_exists (world st) _); cbn [world log calls].
  - destruct (os_path_getmtime (world st) _); cbn [world log calls].
    + destruct (os_path_getmtime (world st) input_path);
        cbn [world log calls].
      * destruct (Qgt_bool _ _); cbn [world log calls].
        -- intros X; inversion X; subst; cbn [world log calls].
           eexists. rewrite <- app_assoc. split; reflexivity.
        -- cf_run; intros X; inversion X; subst; cbn [world log calls];
             eexists; repeat rewrite <- app_assoc; split; reflexivity.
      * intros X; inversion X; subst; cbn [world log calls].
        exists []. split; reflexivity.
    + intros X; inversion X; subst; cbn [world log calls].
      exists []. split; reflexivity.
  - cf_run; intros X; inversion X; subst; cbn [world log calls];
      eexists; repeat rewrite <- app_assoc; split; reflexivity.
Qed.

(** X18: when the loop comes to its end, the log has gained exactly one
    progress record [[i/total] name] for each discovered file, in order,
    numbered from the first index on. *)
Theorem convert_loop_progress (ffmpeg_path output_folder : string)
    (total_files : Z) (mp4_files : list string) :
  forall (i success_count : Z) (st : state W) (sc' : Z) (st' : state W),
    convert_loop ffmpeg_path output_folder total_files i mp4_files
      success_count st = (Ok sc', st') ->
    exists d,
      log st' = log st ++ d
      /\ filter is_progress d
         = map (progress_record total_files) (enumerate i mp4_files).
Proof.
  induction mp4_files as [|p rest IH]; intros i sc st sc' st' H.
  - cbn [convert_loop] in H. unfold ret in H. inversion H; subst.
    exists []. rewrite app_nil_r. split; reflexivity.
  - rewrite convert_loop_cons in H.
    destruct (convert_one ffmpeg_path output_folder total_files i p sc st)
      as [r1 st1] eqn:E1.
    apply convert_one_progress in E1 as (d1 & L1 & F1).
    destruct r1 as [sc1|e]; [|discriminate H].
    apply IH in H as (d2 & L2 & F2).
    exists (progress_record total_files (i, p) :: d1 ++ d2). split.
    + rewrite L2, L1, <- app_assoc. reflexivity.
    + cbn [filter enumerate map].
      change (is_progress (progress_record total_files (i, p))) with true.
      cbv iota. rewrite filter_app, F1, F2. reflexivity.
Qed.

End ProgressFacts.

(** X19: the time of the report, floats being taken as exact: the seconds
    are between 0 and 59, and 60 * mins + secs is the elapsed time rounded
    down to a whole second. *)
Theorem mins_secs_bounds (elapsed : Q) :
  let '(mins, secs) := mins_secs elapsed in
  0 <= secs <= 59
  /\ (inject_Z (60 * mins + secs) <= elapsed)%Q
  /\ (elapsed < inject_Z (60 * mins + secs + 1))%Q.
Proof.
  unfold mins_secs.
  pose proof (Qfloor_le (elapsed / 60)) as A1.
  pose proof (Qlt_floor (elapsed / 60)) as A2.
  generalize dependent (Qfloor (elapsed / 60)). intros m A1 A2.
  pose proof (Qfloor_le (elapsed - inject_Z m * 60)) as B1.
  pose proof (Qlt_floor (elapsed - inject_Z m * 60)) as B2.
  assert (S0 : 0 <= Qfloor (elapsed - inject_Z m * 60)).
  { apply (Qfloor_resp_le 0). rewrite inject_Z_plus in A2.
    assert (Ex : (elapsed == elapsed / 60 * 60)%Q) by field.
    generalize dependent (inject_Z m). intros q. intros. lra. }
  generalize dependent (Qfloor (elapsed - inject_Z m * 60)). intros s B1 B2 S0.
  rewrite inject_Z_plus in A2, B2.
  change (inject_Z 1) with 1%Q in A2, B2.
  assert (Ex : (elapsed == elapsed / 60 * 60)%Q) by field.
  assert (S59 : s <= 59).
  { assert (Hs : (inject_Z s < inject_Z 60)%Q).
    { change (inject_Z 60) with 60%Q.
      generalize dependent (inject_Z s). generalize dependent (inject_Z m).
      intros. lra. }
    rewrite <- Zlt_Qlt in Hs. lia. }
  split; [lia|].
  rewrite !inject_Z_plus, inject_Z_mult.
  change (inject_Z 60) with 60%Q. change (inject_Z 1) with 1%Q.
  generalize dependent (inject_Z s). generalize dependent (inject_Z m).
  intros. split; lra.
Qed.

(** ** More runs on the executable operating system *)

Lemma convert_file_success_witness :
  let st := Sim.boot (one_clip [Sim.Exit 0 "" (Some 1048576)] false) in
  fst (convert_file "ffmpeg" "/in/clip.mp4" "/out/clip.mpeg" st)
  = Ok (true,
        SizeSummary (to_mb 1048576)
          ((1 - to_mb 1048576 / to_mb 4194304) * 100)%Q).
Proof.
  intros st.
  erewrite (convert_file_success (os := Sim.sim_os)
              "ffmpeg" "/in/clip.mp4" "/out/clip.mpeg" st); cycle 1.
  - lazy. reflexivity.
  - lazy. reflexivity.
  - lazy. reflexivity.
  - reflexivity.
  - lazy. reflexivity.
  - lazy. reflexivity.
  - lazy. reflexivity.
  - discriminate.
  - lazy. reflexivity.
  - reflexivity.
Defined.

Lemma convert_file_empty_input_witness :
  let st := Sim.boot empty_clip in
  let run := convert_file "ffmpeg" "/in/clip.mp4" "/out/clip.mpeg" st in
  fst run = Ok (false, ErrorText "float division by zero")
  /\ In (CallCopy2 "/tmp/tmp0/output.mpeg" "/out/clip.mpeg") (calls (snd run)).
Proof.
  intros st run. unfold run.
  erewrite (convert_file_empty_input (os := Sim.sim_os)
              "ffmpeg" "/in/clip.mp4" "/out/clip.mpeg" st); cycle 1.
  - lazy. reflexivity.
  - lazy. reflexivity.
  - lazy. reflexivity.
  - reflexivity.
  - lazy. reflexivity.
  - lazy. reflexivity.
  - lazy. reflexivity.
  - lazy. reflexivity.
  - split; [reflexivity | vm_compute; in_list].
Defined.

Lemma convert_file_cleans_up_witness :
  let st := Sim.boot (one_clip [Sim.Timeout] false) in
  exists cs,
    calls (snd (convert_file "ffmpeg" "/in/clip.mp4" "/out/clip.mpeg" st))
    = calls st
      ++ CallConvertFile "ffmpeg" "/in/clip.mp4" "/out/clip.mpeg"
         :: CallTempdirEnter :: cs
    /\ last cs CallTempdirEnter = CallTempdirExit "/tmp/tmp0"
    /\ count is_tempdir_exit cs = 1
    /\ count is_tempdir_enter cs = 0.
Proof.
  intros st.
  eapply (proj1 (convert_file_cleans_up (os := Sim.sim_os)
                   "ffmpeg" "/in/clip.mp4" "/out/clip.mpeg" st)).
  lazy. reflexivity.
Defined.


Lemma derived_output_name_witness :
  derived_output_path "/out" "/in/my:clip?.mp4" = "/out/myclip.mpeg"
  /\ clean_name (output_stem (os := Sim.sim_os) "/in/my:clip?.mp4").
Proof.
  destruct (derived_output_name (os := Sim.sim_os) "/out" "/in/my:clip?.mp4")
    as (E & C & _); [exact sim_splitext_splits|].
  split; [vm_compute; reflexivity | exact C].
Defined.

Lemma report_counters_bounds_witness :
  let run := convert_folder "/in" None (Sim.boot two_files) in
  0 <= 1 <= 2 /\ 0 <= 1 <= 2.
Proof.
  intros run.
  destruct (report_counters_bounds (os := Sim.sim_os) "/in" None
              (Sim.boot two_files) (fst run) (snd run))
    as (new & L & H); [apply surjective_pairing|].
  change (log (snd run) = new) in L. rewrite <- L in H.
  apply (H 2 1 1); vm_compute; in_list.
Defined.

Lemma convert_loop_all_fresh_witness :
  convert_loop "ffmpeg" "/out" 1 1 ["/in/clip.mp4"] 0 (Sim.boot fresh_world)
  = (Ok 1,
     mkState fresh_world
       [ (INFO, MsgConverting 1 1 "clip.mp4"); (INFO, MsgSkipped "clip.mp4") ]
       []).
Proof.
  rewrite (convert_loop_all_fresh (os := Sim.sim_os)).
  - vm_compute. reflexivity.
  - intros p [<- | []]. split; [vm_compute; reflexivity|].
    exists 20%Q, 10%Q.
    split; [vm_compute; reflexivity
           | split; [vm_compute; reflexivity | reflexivity]].
Defined.

Lemma convert_one_raises_witness :
  let run := convert_one "ffmpeg" "/out" 1 1 "/in/clip.mp4" 0
               (Sim.boot input_gone) in
  fst run = Raise (Sim.no_such_file "/in/clip.mp4")
  /\ os_path_exists input_gone "/out/clip.mpeg" = true
  /\ calls (snd run) = [].
Proof.
  intros run.
  destruct (convert_one_raises (os := Sim.sim_os) "ffmpeg" "/out" 1 1
              "/in/clip.mp4" 0 (Sim.boot input_gone)
              (Sim.no_such_file "/in/clip.mp4") (snd run))
    as (Hex & _ & Hc & _); [vm_compute; reflexivity|].
  split; [vm_compute; reflexivity | split; [exact Hex | exact Hc]].
Defined.

Lemma convert_loop_progress_witness :
  let run := convert_loop "ffmpeg" "/in/MPEG_360p_Output" 2 1
               ["/in/a.mp4"; "/in/b.mp4"] 0
               (snd (effect (CallMakedirs "/in/MPEG_360p_Output")
                       (fun w => os_makedirs w "/in/MPEG_360p_Output")
                       (Sim.boot two_files))) in
  filter is_progress (log (snd run))
  = [ (INFO, MsgConverting 1 2 "a.mp4"); (INFO, MsgConverting 2 2 "b.mp4") ].
Proof.
  intros run.
  destruct (convert_loop_progress (os := Sim.sim_os) "ffmpeg"
              "/in/MPEG_360p_Output" 2 ["/in/a.mp4"; "/in/b.mp4"] 1 0
              (snd (effect (CallMakedirs "/in/MPEG_360p_Output")
                      (fun w => os_makedirs w "/in/MPEG_360p_Output")
                      (Sim.boot two_files)))
              1 (snd run)) as (d & L & F); [vm_compute; reflexivity|].
  change (log (snd run) = d) in L. rewrite L, F. vm_compute. reflexivity.
Defined.

(** ** Failures that end the run *)

Section EndOfRun.

Context {W : Type} {os : OS W}.

(** X20: when the output folder cannot be made, [convert_folder] raises
    the exception of [os.makedirs] at once: nothing is logged, no file is
    looked for and nothing is converted. *)
Theorem convert_folder_makedirs_fails (input_folder : string)
    (output_folder : option string) (st : state W) (ffmpeg_path : string)
    (e : exn) (w1 : W) :
  let out := effective_output_folder input_folder output_folder in
  fst (get_ffmpeg_path st) = Ok (Some ffmpeg_path) ->
  os_makedirs (world st) out = (Raise e, w1) ->
  convert_folder input_folder output_folder st
  = (Raise e, mkState w1 (log st) (calls st ++ [CallMakedirs out])).
Proof.
  intros out Hf Hm. unfold convert_folder. unfold bind at 1.
  rewrite get_ffmpeg_path_run in *.
  destruct (find _ ffmpeg_candidates); [|discriminate Hf].
  fold out. unfold bind at 1, effect at 1. rewrite Hm. reflexivity.
Qed.

(** X21: when the output folder cannot be listed in the space report, the
    run raises after the counters of the report are logged: the size
    records, the closing records and the list of failed files are not
    written. *)
Theorem report_and_list_listdir_fails (output_folder : string)
    (mp4_files : list string) (total_files : Z) (start_time : Q)
    (success_count : Z) (st : state W) (now : Q) (w1 : W)
    (total_input_size : Z) (e : exn) :
  time_time (world st) = (now, w1) ->
  0 < success_count ->
  total_size w1 (existing_inputs w1 mp4_files) = Ok total_input_size ->
  os_listdir w1 output_folder = Raise e ->
  let '(mins, secs) := mins_secs (now - start_time) in
  report_and_list output_folder mp4_files total_files start_time
    success_count st
  = (Raise e,
     mkState w1 (log st ++ report_head total_files success_count mins secs)
       (calls st)).
Proof.
  intros Ht Hpos Hin Hls.
  destruct (mins_secs (now - start_time)) as [mins secs] eqn:Em.
  unfold report_and_list, clock. unfold bind at 1. rewrite Ht, Em.
  unfold bind at 1 2 3 4 5 6, logging; cbn [world log calls].
  unfold bind at 1. unfold report_sizes.
  replace (success_count >? 0) with true
    by (symmetry; rewrite Z.gtb_ltb; apply Z.ltb_lt; assumption).
  unfold bind at 1. rewrite sum_input_sizes_spec; cbn [world log calls].
  rewrite Hin. unfold bind at 1, read_res at 1; cbn [world log calls].
  rewrite Hls. unfold report_head. repeat rewrite <- app_assoc. reflexivity.
Qed.

End EndOfRun.

(** ** Outputs are not inputs *)

Lemma eqb_length (a b : string) :
  String.length a <> String.length b -> String.eqb a b = false.
Proof. intros H. apply String.eqb_neq. intros ->. apply H. reflexivity. Qed.

Lemma lower_app (a b : string) :
  Py.lower (a ++ b) = (Py.lower a ++ Py.lower b)%string.
Proof. induction a as [|c a IH]; simpl; [reflexivity | rewrite IH; reflexivity]. Qed.

Lemma endswith_mpeg_not_mp4 (s : string) :
  Py.endswith (s ++ ".mpeg") ".mp4" = false.
Proof.
  induction s as [|c s IH]; [reflexivity|].
  change (String c s ++ ".mpeg")%string with (String c (s ++ ".mpeg")).
  cbn [Py.endswith]. rewrite IH, orb_false_r.
  apply eqb_length. cbn [String.length]. rewrite PyMore.length_app.
  cbn [String.length]. lia.
Qed.

(** X22: the discovery never takes an output for an input: the name of an
    output, its stem followed by ".mpeg", does not end with ".mp4" in any
    letter case, whatever the stem; neither does the name of the list of
    failed files.  (The default output folder lies inside the input
    folder and is walked with it.) *)
Theorem outputs_are_not_discovered (stem : string) :
  Py.endswith (Py.lower (stem ++ ".mpeg")) ".mp4" = false
  /\ Py.endswith (Py.lower "failed_files.txt") ".mp4" = false.
Proof.
  split; [|reflexivity].
  rewrite lower_app. apply endswith_mpeg_not_mp4.
Qed.

Lemma convert_folder_makedirs_fails_witness :
  fst (convert_folder "/in" (Some "/out") (Sim.boot output_is_file))
  = Raise (mkExn OSError "[Errno 17] File exists: '/out'")
  /\ log (snd (convert_folder "/in" (Some "/out") (Sim.boot output_is_file)))
     = [].
Proof.
  erewrite (convert_folder_makedirs_fails (os := Sim.sim_os)); cycle 1.
  - vm_compute. reflexivity.
  - vm_compute. reflexivity.
  - split; reflexivity.
Defined.

Lemma report_and_list_listdir_fails_witness :
  let run := report_and_list "/nowhere" ["/in/clip.mp4"] 1 0 1
               (Sim.boot fresh_world) in
  fst run = Raise (Sim.no_such_file "/nowhere")
  /\ log (snd run) = report_head 1 1 1 40.
Proof.
  intros run.
  pose proof (report_and_list_listdir_fails (os := Sim.sim_os) "/nowhere"
                ["/in/clip.mp4"] 1 0 1 (Sim.boot fresh_world) 100
                (Sim.tick fresh_world 1) 4194304
                (Sim.no_such_file "/nowhere")
                eq_refl) as H.
  assert (Em : mins_secs (100 - 0) = (1, 40)) by (vm_compute; reflexivity).
  rewrite Em in H. unfold run. rewrite H.
  - split; reflexivity.
  - lia.
  - vm_compute. reflexivity.
  - vm_compute. reflexivity.
Defined.
